(** * NVIDIA DeepStream metadata extension structures (nvdsmeta_schema.h)

    A shallow embedding of [src/includes/nvdsmeta_schema.h]: the three
    kind-tag enumerations, the plain structures of the schema, the
    constructor of the analytics block, and the field assignments by which a
    producer attaches data to an event record.

    Conventions.
    - [gint], [int], [guint], [guint64] and every enumeration-typed field are
      [Z]: the header does no arithmetic on them, so no wrap-around occurs.
    - [float] and [gdouble] values are IEEE values, [spec_float].
    - A pointer ([gchar *], [gdouble *], [gpointer], ...) is an address
      [N], with [NULL] = 0; what it points to lives in a [store]. *)

From Stdlib Require Import ZArith List Bool Lia.
From Stdlib Require Import Floats.SpecFloat.
From stdpp Require Import gmap list vector strings.

Local Open Scope Z_scope.

(** ** Enumerations *)

(** The numbering rule of a C enumeration: an enumerator with an initialiser
    takes its value, one without takes the previous value plus one, and the
    first one takes 0. *)
Section EnumNumbering.
Context {E : Type} `{EqDecision E}.

Fixpoint enum_number (next : Z) (d : list (E * option Z)) : list (E * Z) :=
  match d with
  | [] => []
  | (e, init) :: rest =>
      let v := match init with Some v => v | None => next end in
      (e, v) :: enum_number (v + 1) rest
  end.

Fixpoint enum_assoc (e : E) (l : list (E * Z)) : option Z :=
  match l with
  | [] => None
  | (e', v) :: rest => if decide (e = e') then Some v else enum_assoc e rest
  end.

Definition enum_value (d : list (E * option Z)) (e : E) : Z :=
  default 0 (enum_assoc e (enum_number 0 d)).

(** The enumerators written before, and after, a given one. *)
Fixpoint declared_before (r : E) (d : list (E * option Z)) : list E :=
  match d with
  | [] => []
  | (e, _) :: rest =>
      if decide (e = r) then [] else e :: declared_before r rest
  end.

Fixpoint declared_after (r : E) (d : list (E * option Z)) : list E :=
  match d with
  | [] => []
  | (e, _) :: rest =>
      if decide (e = r) then map fst rest else declared_after r rest
  end.
End EnumNumbering.

(** [enum NvDsEventType]: event type flags. *)
Inductive NvDsEventType : Set :=
  | NVDS_EVENT_ENTRY
  | NVDS_EVENT_EXIT
  | NVDS_EVENT_MOVING
  | NVDS_EVENT_STOPPED
  | NVDS_EVENT_EMPTY
  | NVDS_EVENT_PARKED
  | NVDS_EVENT_RESET
  | NVDS_EVENT_RESERVED
  | NVDS_EVENT_CUSTOM
  | NVDS_EVENT_FRAME_ANALYSIS
  | NVDS_EVENT_FORCE32.

#[global] Instance NvDsEventType_eq_dec : EqDecision NvDsEventType.
Proof. solve_decision. Defined.

Definition NvDsEventType_decl : list (NvDsEventType * option Z) :=
  [ (NVDS_EVENT_ENTRY, None);
    (NVDS_EVENT_EXIT, None);
    (NVDS_EVENT_MOVING, None);
    (NVDS_EVENT_STOPPED, None);
    (NVDS_EVENT_EMPTY, None);
    (NVDS_EVENT_PARKED, None);
    (NVDS_EVENT_RESET, None);
    (NVDS_EVENT_RESERVED, Some 0x100);
    (NVDS_EVENT_CUSTOM, Some 0x101);
    (NVDS_EVENT_FRAME_ANALYSIS, Some 0x102);
    (NVDS_EVENT_FORCE32, Some 0x7FFFFFFF) ].

Definition NvDsEventType_value : NvDsEventType -> Z :=
  enum_value NvDsEventType_decl.

(** [enum NvDsObjectType]: object type flags.  The sentinel is spelled
    [NVDS_OBEJCT_TYPE_FORCE32] in the header. *)
Inductive NvDsObjectType : Set :=
  | NVDS_OBJECT_TYPE_VEHICLE
  | NVDS_OBJECT_TYPE_PERSON
  | NVDS_OBJECT_TYPE_FACE
  | NVDS_OBJECT_TYPE_BAG
  | NVDS_OBJECT_TYPE_BICYCLE
  | NVDS_OBJECT_TYPE_ROADSIGN
  | NVDS_OBJECT_TYPE_VEHICLE_EXT
  | NVDS_OBJECT_TYPE_PERSON_EXT
  | NVDS_OBJECT_TYPE_FACE_EXT
  | NVDS_OBJECT_TYPE_PRODUCT
  | NVDS_OBJECT_TYPE_PRODUCT_EXT
  | NVDS_OBJECT_TYPE_RESERVED
  | NVDS_OBJECT_TYPE_CUSTOM
  | NVDS_OBJECT_TYPE_UNKNOWN
  | NVDS_OBJECT_TYPE_FRAME_ANALYSIS
  | NVDS_OBEJCT_TYPE_FORCE32.

#[global] Instance NvDsObjectType_eq_dec : EqDecision NvDsObjectType.
Proof. solve_decision. Defined.

Definition NvDsObjectType_decl : list (NvDsObjectType * option Z) :=
  [ (NVDS_OBJECT_TYPE_VEHICLE, None);
    (NVDS_OBJECT_TYPE_PERSON, None);
    (NVDS_OBJECT_TYPE_FACE, None);
    (NVDS_OBJECT_TYPE_BAG, None);
    (NVDS_OBJECT_TYPE_BICYCLE, None);
    (NVDS_OBJECT_TYPE_ROADSIGN, None);
    (NVDS_OBJECT_TYPE_VEHICLE_EXT, None);
    (NVDS_OBJECT_TYPE_PERSON_EXT, None);
    (NVDS_OBJECT_TYPE_FACE_EXT, None);
    (NVDS_OBJECT_TYPE_PRODUCT, None);
    (NVDS_OBJECT_TYPE_PRODUCT_EXT, None);
    (NVDS_OBJECT_TYPE_RESERVED, Some 0x100);
    (NVDS_OBJECT_TYPE_CUSTOM, Some 0x101);
    (NVDS_OBJECT_TYPE_UNKNOWN, Some 0x102);
    (NVDS_OBJECT_TYPE_FRAME_ANALYSIS, Some 0x103);
    (NVDS_OBEJCT_TYPE_FORCE32, Some 0x7FFFFFFF) ].

Definition NvDsObjectType_value : NvDsObjectType -> Z :=
  enum_value NvDsObjectType_decl.

(** [enum NvDsPayloadType]: payload type flags. *)
Inductive NvDsPayloadType : Set :=
  | NVDS_PAYLOAD_DEEPSTREAM
  | NVDS_PAYLOAD_DEEPSTREAM_MINIMAL
  | NVDS_PAYLOAD_DEEPSTREAM_PROTOBUF
  | NVDS_PAYLOAD_RESERVED
  | NVDS_PAYLOAD_CUSTOM
  | NVDS_PAYLOAD_FORCE32.

#[global] Instance NvDsPayloadType_eq_dec : EqDecision NvDsPayloadType.
Proof. solve_decision. Defined.

Definition NvDsPayloadType_decl : list (NvDsPayloadType * option Z) :=
  [ (NVDS_PAYLOAD_DEEPSTREAM, None);
    (NVDS_PAYLOAD_DEEPSTREAM_MINIMAL, None);
    (NVDS_PAYLOAD_DEEPSTREAM_PROTOBUF, None);
    (NVDS_PAYLOAD_RESERVED, Some 0x100);
    (NVDS_PAYLOAD_CUSTOM, Some 0x101);
    (NVDS_PAYLOAD_FORCE32, Some 0x7FFFFFFF) ].

Definition NvDsPayloadType_value : NvDsPayloadType -> Z :=
  enum_value NvDsPayloadType_decl.

(** The header's rule for custom tags, stated on each [*_RESERVED]
    enumerator: "Reserved for future use.  Custom events (objects, payloads)
    must be assigned values greater than this." *)
Definition custom_event_value (v : Z) : bool :=
  NvDsEventType_value NVDS_EVENT_RESERVED <? v.
Definition custom_object_value (v : Z) : bool :=
  NvDsObjectType_value NVDS_OBJECT_TYPE_RESERVED <? v.
Definition custom_payload_value (v : Z) : bool :=
  NvDsPayloadType_value NVDS_PAYLOAD_RESERVED <? v.

(** The custom range in the specification's words, for comparison with the
    header's rule: "0x100 and above are consumer/custom". *)
Definition spec_custom_range (v : Z) : bool := 0x100 <=? v.

(** [enum ObjectMoveDirectionType] and [enum ObjectStatusType]. *)
Inductive ObjectMoveDirectionType : Set :=
  | MOVE_UP | MOVE_DOWN | MOVE_LEFT | MOVE_RIGHT
  | MOVE_RIGHT_UP | MOVE_RIGHT_DOWN | MOVE_LEFT_UP | MOVE_LEFT_DOWN
  | MOVE_LITTLE | NO_DIRECTION.

#[global] Instance ObjectMoveDirectionType_eq_dec :
  EqDecision ObjectMoveDirectionType.
Proof. solve_decision. Defined.

Definition ObjectMoveDirectionType_decl
  : list (ObjectMoveDirectionType * option Z) :=
  [ (MOVE_UP, None); (MOVE_DOWN, None); (MOVE_LEFT, None);
    (MOVE_RIGHT, None); (MOVE_RIGHT_UP, None); (MOVE_RIGHT_DOWN, None);
    (MOVE_LEFT_UP, None); (MOVE_LEFT_DOWN, None); (MOVE_LITTLE, None);
    (NO_DIRECTION, None) ].

Definition ObjectMoveDirectionType_value : ObjectMoveDirectionType -> Z :=
  enum_value ObjectMoveDirectionType_decl.

Inductive ObjectStatusType : Set :=
  | VEHICLE_LONG_PARK | PERSON_LONG_STANDING | PERSON_LONG_WALK
  | PERSON_LOITERING | PERSON_BREAKIN | PERSON_JAYWALK | PERSON_OVERCROWD
  | COLLIDE_PRE | COLLIDE_CLOSE | OBJ_MOVE | NO_STATUS.

#[global] Instance ObjectStatusType_eq_dec : EqDecision ObjectStatusType.
Proof. solve_decision. Defined.

Definition ObjectStatusType_decl : list (ObjectStatusType * option Z) :=
  [ (VEHICLE_LONG_PARK, None); (PERSON_LONG_STANDING, None);
    (PERSON_LONG_WALK, None); (PERSON_LOITERING, None);
    (PERSON_BREAKIN, None); (PERSON_JAYWALK, None);
    (PERSON_OVERCROWD, None); (COLLIDE_PRE, None); (COLLIDE_CLOSE, None);
    (OBJ_MOVE, None); (NO_STATUS, None) ].

Definition ObjectStatusType_value : ObjectStatusType -> Z :=
  enum_value ObjectStatusType_decl.


(** ** Scalar types and the store *)

(** GLib's scalar types.  [gint]/[int] range over [-2^31, 2^31), [guint]
    over [0, 2^32), [guint64] over [0, 2^64). *)
Definition gint : Type := Z.
Definition guint : Type := Z.
Definition guint64 : Type := Z.
Definition float : Type := spec_float.
Definition gdouble : Type := spec_float.

(** The value the conversion of the integer constant [0] to [float] gives:
    positive zero. *)
Definition float_zero : float := S754_zero false.

(** An address; [NULL] is address 0.  Every pointer type of the header
    ([gchar *], [gdouble *], [float *], [NvDsJoint *], [GList *], [void *],
    [gpointer], [NvDsEventMsgMeta *]) is an address: the pointer itself
    carries no information about what it points to. *)
Definition gpointer : Type := N.
Definition NULL : gpointer := 0%N.

(** ** Structures

    A field keeps its source name.  Where two structures share a field name,
    or the name is a single letter, the field is written
    [<structure>_<field>]. *)

(** [struct NvDsRect]: a rectangle's position and size. *)
Record NvDsRect : Type := {
  top : float;
  left : float;
  width : float;
  height : float
}.

(** [struct NvDsGeoLocation]. *)
Record NvDsGeoLocation : Type := {
  lat : gdouble;
  lon : gdouble;
  alt : gdouble
}.

(** [struct NvDsCoordinate]. *)
Record NvDsCoordinate : Type := {
  NvDsCoordinate_x : gdouble;
  NvDsCoordinate_y : gdouble;
  NvDsCoordinate_z : gdouble
}.

(** [struct NvDsObjectSignature]: a pointer to an array of signature values
    and "the number of signature values in signature". *)
Record NvDsObjectSignature : Type := {
  signature : gpointer;
  size : guint
}.

(** [struct NvDsProductObjectExt]. *)
Record NvDsProductObjectExt : Type := {
  NvDsProductObjectExt_brand : gpointer;
  NvDsProductObjectExt_type : gpointer;
  NvDsProductObjectExt_shape : gpointer;
  NvDsProductObjectExt_mask : gpointer
}.

(** [struct NvDsVehicleObject]. *)
Record NvDsVehicleObject : Type := {
  NvDsVehicleObject_type : gpointer;
  NvDsVehicleObject_make : gpointer;
  NvDsVehicleObject_model : gpointer;
  NvDsVehicleObject_color : gpointer;
  NvDsVehicleObject_region : gpointer;
  NvDsVehicleObject_license : gpointer
}.

(** [struct NvDsPersonObject]. *)
Record NvDsPersonObject : Type := {
  NvDsPersonObject_gender : gpointer;
  NvDsPersonObject_hair : gpointer;
  NvDsPersonObject_cap : gpointer;
  NvDsPersonObject_apparel : gpointer;
  NvDsPersonObject_age : guint
}.

(** [struct NvDsFaceObject]. *)
Record NvDsFaceObject : Type := {
  NvDsFaceObject_gender : gpointer;
  NvDsFaceObject_hair : gpointer;
  NvDsFaceObject_cap : gpointer;
  NvDsFaceObject_glasses : gpointer;
  NvDsFaceObject_facialhair : gpointer;
  NvDsFaceObject_name : gpointer;
  NvDsFaceObject_eyecolor : gpointer;
  NvDsFaceObject_age : guint
}.

(** [struct NvDsVehicleObjectExt]. *)
Record NvDsVehicleObjectExt : Type := {
  NvDsVehicleObjectExt_type : gpointer;
  NvDsVehicleObjectExt_make : gpointer;
  NvDsVehicleObjectExt_model : gpointer;
  NvDsVehicleObjectExt_color : gpointer;
  NvDsVehicleObjectExt_region : gpointer;
  NvDsVehicleObjectExt_license : gpointer;
  NvDsVehicleObjectExt_mask : gpointer
}.

(** [struct NvDsPersonObjectExt]. *)
Record NvDsPersonObjectExt : Type := {
  NvDsPersonObjectExt_gender : gpointer;
  NvDsPersonObjectExt_hair : gpointer;
  NvDsPersonObjectExt_cap : gpointer;
  NvDsPersonObjectExt_apparel : gpointer;
  NvDsPersonObjectExt_age : guint;
  NvDsPersonObjectExt_mask : gpointer
}.

(** [struct NvDsFaceObjectWithExt], typedef [NvDsFaceObjectExt]. *)
Record NvDsFaceObjectExt : Type := {
  NvDsFaceObjectExt_gender : gpointer;
  NvDsFaceObjectExt_hair : gpointer;
  NvDsFaceObjectExt_cap : gpointer;
  NvDsFaceObjectExt_glasses : gpointer;
  NvDsFaceObjectExt_facialhair : gpointer;
  NvDsFaceObjectExt_name : gpointer;
  NvDsFaceObjectExt_eyecolor : gpointer;
  NvDsFaceObjectExt_age : guint;
  NvDsFaceObjectExt_mask : gpointer
}.

(** [struct NvDsJoint]: a joint's position and confidence. *)
Record NvDsJoint : Type := {
  NvDsJoint_x : float;
  NvDsJoint_y : float;
  NvDsJoint_z : float;
  NvDsJoint_confidence : float
}.

(** [struct NvDsJoints]: [num_joints] and [pose_type] are [int]. *)
Record NvDsJoints : Type := {
  joints : gpointer;
  num_joints : gint;
  pose_type : gint
}.

(** [struct NvDsEmbedding]. *)
Record NvDsEmbedding : Type := {
  embedding_vector : gpointer;
  embedding_length : guint
}.

(** [struct NvDsProductObject]. *)
Record NvDsProductObject : Type := {
  NvDsProductObject_brand : gpointer;
  NvDsProductObject_type : gpointer;
  NvDsProductObject_shape : gpointer
}.

(** [struct _AnalyticsObjectMeta], typedef [AnalyticsObjectMeta].  The two
    enumeration-typed fields hold the integer of an enumerator;
    [arrayLaneNumber] is an array of exactly four [gint]. *)
Record AnalyticsObjectMeta : Type := {
  objMoveDIrection : Z;
  objStatus : Z;
  move_length : float;
  time_gap_move_millisec : float;
  move_speed : float;
  time_gap_longstay_millisec : float;
  arrayLaneNumber : vec gint 4;
  laneArraySize : gint;
  reverseLaneNo : gint
}.

(** [struct NvDsEventMsgMeta]: event message meta data. *)
Record NvDsEventMsgMeta : Type := {
  type : Z;
  objType : Z;
  bbox : NvDsRect;
  location : NvDsGeoLocation;
  coordinate : NvDsCoordinate;
  objSignature : NvDsObjectSignature;
  objClassId : gint;
  sensorId : gint;
  moduleId : gint;
  placeId : gint;
  componentId : gint;
  frameId : gint;
  confidence : gdouble;
  trackingId : guint64;
  ts : gpointer;
  objectId : gpointer;
  sensorStr : gpointer;
  otherAttrs : gpointer;
  videoPath : gpointer;
  extMsg : gpointer;
  extMsgSize : guint;
  pose : NvDsJoints;
  embedding : NvDsEmbedding;
  objStatusInfo : AnalyticsObjectMeta;
  boolExistLaneCross : bool;
  boolReverseDrive : bool;
  boolExistOverCrowd : bool;
  boolExistLongPark : bool;
  boolExistLoitering : bool;
  boolExistBreakIn : bool;
  boolExistJayWalk : bool
}.

(** [struct _NvDsEvent], typedef [NvDsEvent]. *)
Record NvDsEvent : Type := {
  eventType : Z;
  metadata : gpointer
}.

(** [struct _NvDsCustomMsgInfo], typedef [NvDsCustomMsgInfo]: a custom
    message and its size. *)
Record NvDsCustomMsgInfo : Type := {
  message : gpointer;
  NvDsCustomMsgInfo_size : guint
}.

(** [struct NvDsPayload]. *)
Record NvDsPayload : Type := {
  payload : gpointer;
  payloadSize : guint;
  NvDsPayload_componentId : guint
}.

(** ** Field assignment

    The header's structures are plain data with public fields: the only way
    to change one is the assignment [m.f = v], which replaces field [f] and
    nothing else.  [set_f m v] is the structure after that assignment. *)

Definition set_move_speed (this : AnalyticsObjectMeta) (v : float)
  : AnalyticsObjectMeta :=
  {| objMoveDIrection := objMoveDIrection this; objStatus := objStatus this;
     move_length := move_length this;
     time_gap_move_millisec := time_gap_move_millisec this; move_speed := v;
     time_gap_longstay_millisec := time_gap_longstay_millisec this;
     arrayLaneNumber := arrayLaneNumber this;
     laneArraySize := laneArraySize this;
     reverseLaneNo := reverseLaneNo this |}.

Definition set_arrayLaneNumber (this : AnalyticsObjectMeta) (v : vec gint 4)
  : AnalyticsObjectMeta :=
  {| objMoveDIrection := objMoveDIrection this; objStatus := objStatus this;
     move_length := move_length this;
     time_gap_move_millisec := time_gap_move_millisec this;
     move_speed := move_speed this;
     time_gap_longstay_millisec := time_gap_longstay_millisec this;
     arrayLaneNumber := v; laneArraySize := laneArraySize this;
     reverseLaneNo := reverseLaneNo this |}.

(** The assignment [arrayLaneNumber[i] = v]. *)
Definition set_lane (a : AnalyticsObjectMeta) (i : fin 4) (v : gint)
  : AnalyticsObjectMeta :=
  set_arrayLaneNumber a (vinsert i v (arrayLaneNumber a)).

Definition set_laneArraySize (this : AnalyticsObjectMeta) (v : gint)
  : AnalyticsObjectMeta :=
  {| objMoveDIrection := objMoveDIrection this; objStatus := objStatus this;
     move_length := move_length this;
     time_gap_move_millisec := time_gap_move_millisec this;
     move_speed := move_speed this;
     time_gap_longstay_millisec := time_gap_longstay_millisec this;
     arrayLaneNumber := arrayLaneNumber this; laneArraySize := v;
     reverseLaneNo := reverseLaneNo this |}.

Definition set_reverseLaneNo (this : AnalyticsObjectMeta) (v : gint)
  : AnalyticsObjectMeta :=
  {| objMoveDIrection := objMoveDIrection this; objStatus := objStatus this;
     move_length := move_length this;
     time_gap_move_millisec := time_gap_move_millisec this;
     move_speed := move_speed this;
     time_gap_longstay_millisec := time_gap_longstay_millisec this;
     arrayLaneNumber := arrayLaneNumber this;
     laneArraySize := laneArraySize this; reverseLaneNo := v |}.

Definition set_type (m : NvDsEventMsgMeta) (v : Z)
  : NvDsEventMsgMeta :=
  {| type := v; objType := objType m; bbox := bbox m; location := location m;
     coordinate := coordinate m; objSignature := objSignature m;
     objClassId := objClassId m; sensorId := sensorId m;
     moduleId := moduleId m; placeId := placeId m;
     componentId := componentId m; frameId := frameId m;
     confidence := confidence m; trackingId := trackingId m; ts := ts m;
     objectId := objectId m; sensorStr := sensorStr m;
     otherAttrs := otherAttrs m; videoPath := videoPath m;
     extMsg := extMsg m; extMsgSize := extMsgSize m; pose := pose m;
     embedding := embedding m; objStatusInfo := objStatusInfo m;
     boolExistLaneCross := boolExistLaneCross m;
     boolReverseDrive := boolReverseDrive m;
     boolExistOverCrowd := boolExistOverCrowd m;
     boolExistLongPark := boolExistLongPark m;
     boolExistLoitering := boolExistLoitering m;
     boolExistBreakIn := boolExistBreakIn m;
     boolExistJayWalk := boolExistJayWalk m |}.

Definition set_objType (m : NvDsEventMsgMeta) (v : Z)
  : NvDsEventMsgMeta :=
  {| type := type m; objType := v; bbox := bbox m; location := location m;
     coordinate := coordinate m; objSignature := objSignature m;
     objClassId := objClassId m; sensorId := sensorId m;
     moduleId := moduleId m; placeId := placeId m;
     componentId := componentId m; frameId := frameId m;
     confidence := confidence m; trackingId := trackingId m; ts := ts m;
     objectId := objectId m; sensorStr := sensorStr m;
     otherAttrs := otherAttrs m; videoPath := videoPath m;
     extMsg := extMsg m; extMsgSize := extMsgSize m; pose := pose m;
     embedding := embedding m; objStatusInfo := objStatusInfo m;
     boolExistLaneCross := boolExistLaneCross m;
     boolReverseDrive := boolReverseDrive m;
     boolExistOverCrowd := boolExistOverCrowd m;
     boolExistLongPark := boolExistLongPark m;
     boolExistLoitering := boolExistLoitering m;
     boolExistBreakIn := boolExistBreakIn m;
     boolExistJayWalk := boolExistJayWalk m |}.

Definition set_objSignature (m : NvDsEventMsgMeta) (v : NvDsObjectSignature)
  : NvDsEventMsgMeta :=
  {| type := type m; objType := objType m; bbox := bbox m;
     location := location m; coordinate := coordinate m; objSignature := v;
     objClassId := objClassId m; sensorId := sensorId m;
     moduleId := moduleId m; placeId := placeId m;
     componentId := componentId m; frameId := frameId m;
     confidence := confidence m; trackingId := trackingId m; ts := ts m;
     objectId := objectId m; sensorStr := sensorStr m;
     otherAttrs := otherAttrs m; videoPath := videoPath m;
     extMsg := extMsg m; extMsgSize := extMsgSize m; pose := pose m;
     embedding := embedding m; objStatusInfo := objStatusInfo m;
     boolExistLaneCross := boolExistLaneCross m;
     boolReverseDrive := boolReverseDrive m;
     boolExistOverCrowd := boolExistOverCrowd m;
     boolExistLongPark := boolExistLongPark m;
     boolExistLoitering := boolExistLoitering m;
     boolExistBreakIn := boolExistBreakIn m;
     boolExistJayWalk := boolExistJayWalk m |}.

Definition set_extMsg (m : NvDsEventMsgMeta) (v : gpointer)
  : NvDsEventMsgMeta :=
  {| type := type m; objType := objType m; bbox := bbox m;
     location := location m; coordinate := coordinate m;
     objSignature := objSignature m; objClassId := objClassId m;
     sensorId := sensorId m; moduleId := moduleId m; placeId := placeId m;
     componentId := componentId m; frameId := frameId m;
     confidence := confidence m; trackingId := trackingId m; ts := ts m;
     objectId := objectId m; sensorStr := sensorStr m;
     otherAttrs := otherAttrs m; videoPath := videoPath m; extMsg := v;
     extMsgSize := extMsgSize m; pose := pose m; embedding := embedding m;
     objStatusInfo := objStatusInfo m;
     boolExistLaneCross := boolExistLaneCross m;
     boolReverseDrive := boolReverseDrive m;
     boolExistOverCrowd := boolExistOverCrowd m;
     boolExistLongPark := boolExistLongPark m;
     boolExistLoitering := boolExistLoitering m;
     boolExistBreakIn := boolExistBreakIn m;
     boolExistJayWalk := boolExistJayWalk m |}.

Definition set_extMsgSize (m : NvDsEventMsgMeta) (v : guint)
  : NvDsEventMsgMeta :=
  {| type := type m; objType := objType m; bbox := bbox m;
     location := location m; coordinate := coordinate m;
     objSignature := objSignature m; objClassId := objClassId m;
     sensorId := sensorId m; moduleId := moduleId m; placeId := placeId m;
     componentId := componentId m; frameId := frameId m;
     confidence := confidence m; trackingId := trackingId m; ts := ts m;
     objectId := objectId m; sensorStr := sensorStr m;
     otherAttrs := otherAttrs m; videoPath := videoPath m;
     extMsg := extMsg m; extMsgSize := v; pose := pose m;
     embedding := embedding m; objStatusInfo := objStatusInfo m;
     boolExistLaneCross := boolExistLaneCross m;
     boolReverseDrive := boolReverseDrive m;
     boolExistOverCrowd := boolExistOverCrowd m;
     boolExistLongPark := boolExistLongPark m;
     boolExistLoitering := boolExistLoitering m;
     boolExistBreakIn := boolExistBreakIn m;
     boolExistJayWalk := boolExistJayWalk m |}.

Definition set_pose (m : NvDsEventMsgMeta) (v : NvDsJoints)
  : NvDsEventMsgMeta :=
  {| type := type m; objType := objType m; bbox := bbox m;
     location := location m; coordinate := coordinate m;
     objSignature := objSignature m; objClassId := objClassId m;
     sensorId := sensorId m; moduleId := moduleId m; placeId := placeId m;
     componentId := componentId m; frameId := frameId m;
     confidence := confidence m; trackingId := trackingId m; ts := ts m;
     objectId := objectId m; sensorStr := sensorStr m;
     otherAttrs := otherAttrs m; videoPath := videoPath m;
     extMsg := extMsg m; extMsgSize := extMsgSize m; pose := v;
     embedding := embedding m; objStatusInfo := objStatusInfo m;
     boolExistLaneCross := boolExistLaneCross m;
     boolReverseDrive := boolReverseDrive m;
     boolExistOverCrowd := boolExistOverCrowd m;
     boolExistLongPark := boolExistLongPark m;
     boolExistLoitering := boolExistLoitering m;
     boolExistBreakIn := boolExistBreakIn m;
     boolExistJayWalk := boolExistJayWalk m |}.

Definition set_embedding (m : NvDsEventMsgMeta) (v : NvDsEmbedding)
  : NvDsEventMsgMeta :=
  {| type := type m; objType := objType m; bbox := bbox m;
     location := location m; coordinate := coordinate m;
     objSignature := objSignature m; objClassId := objClassId m;
     sensorId := sensorId m; moduleId := moduleId m; placeId := placeId m;
     componentId := componentId m; frameId := frameId m;
     confidence := confidence m; trackingId := trackingId m; ts := ts m;
     objectId := objectId m; sensorStr := sensorStr m;
     otherAttrs := otherAttrs m; videoPath := videoPath m;
     extMsg := extMsg m; extMsgSize := extMsgSize m; pose := pose m;
     embedding := v; objStatusInfo := objStatusInfo m;
     boolExistLaneCross := boolExistLaneCross m;
     boolReverseDrive := boolReverseDrive m;
     boolExistOverCrowd := boolExistOverCrowd m;
     boolExistLongPark := boolExistLongPark m;
     boolExistLoitering := boolExistLoitering m;
     boolExistBreakIn := boolExistBreakIn m;
     boolExistJayWalk := boolExistJayWalk m |}.

Definition set_objStatusInfo (m : NvDsEventMsgMeta) (v : AnalyticsObjectMeta)
  : NvDsEventMsgMeta :=
  {| type := type m; objType := objType m; bbox := bbox m;
     location := location m; coordinate := coordinate m;
     objSignature := objSignature m; objClassId := objClassId m;
     sensorId := sensorId m; moduleId := moduleId m; placeId := placeId m;
     componentId := componentId m; frameId := frameId m;
     confidence := confidence m; trackingId := trackingId m; ts := ts m;
     objectId := objectId m; sensorStr := sensorStr m;
     otherAttrs := otherAttrs m; videoPath := videoPath m;
     extMsg := extMsg m; extMsgSize := extMsgSize m; pose := pose m;
     embedding := embedding m; objStatusInfo := v;
     boolExistLaneCross := boolExistLaneCross m;
     boolReverseDrive := boolReverseDrive m;
     boolExistOverCrowd := boolExistOverCrowd m;
     boolExistLongPark := boolExistLongPark m;
     boolExistLoitering := boolExistLoitering m;
     boolExistBreakIn := boolExistBreakIn m;
     boolExistJayWalk := boolExistJayWalk m |}.

Definition set_boolExistLaneCross (m : NvDsEventMsgMeta) (v : bool)
  : NvDsEventMsgMeta :=
  {| type := type m; objType := objType m; bbox := bbox m;
     location := location m; coordinate := coordinate m;
     objSignature := objSignature m; objClassId := objClassId m;
     sensorId := sensorId m; moduleId := moduleId m; placeId := placeId m;
     componentId := componentId m; frameId := frameId m;
     confidence := confidence m; trackingId := trackingId m; ts := ts m;
     objectId := objectId m; sensorStr := sensorStr m;
     otherAttrs := otherAttrs m; videoPath := videoPath m;
     extMsg := extMsg m; extMsgSize := extMsgSize m; pose := pose m;
     embedding := embedding m; objStatusInfo := objStatusInfo m;
     boolExistLaneCross := v; boolReverseDrive := boolReverseDrive m;
     boolExistOverCrowd := boolExistOverCrowd m;
     boolExistLongPark := boolExistLongPark m;
     boolExistLoitering := boolExistLoitering m;
     boolExistBreakIn := boolExistBreakIn m;
     boolExistJayWalk := boolExistJayWalk m |}.

Definition set_boolReverseDrive (m : NvDsEventMsgMeta) (v : bool)
  : NvDsEventMsgMeta :=
  {| type := type m; objType := objType m; bbox := bbox m;
     location := location m; coordinate := coordinate m;
     objSignature := objSignature m; objClassId := objClassId m;
     sensorId := sensorId m; moduleId := moduleId m; placeId := placeId m;
     componentId := componentId m; frameId := frameId m;
     confidence := confidence m; trackingId := trackingId m; ts := ts m;
     objectId := objectId m; sensorStr := sensorStr m;
     otherAttrs := otherAttrs m; videoPath := videoPath m;
     extMsg := extMsg m; extMsgSize := extMsgSize m; pose := pose m;
     embedding := embedding m; objStatusInfo := objStatusInfo m;
     boolExistLaneCross := boolExistLaneCross m; boolReverseDrive := v;
     boolExistOverCrowd := boolExistOverCrowd m;
     boolExistLongPark := boolExistLongPark m;
     boolExistLoitering := boolExistLoitering m;
     boolExistBreakIn := boolExistBreakIn m;
     boolExistJayWalk := boolExistJayWalk m |}.

Definition set_boolExistOverCrowd (m : NvDsEventMsgMeta) (v : bool)
  : NvDsEventMsgMeta :=
  {| type := type m; objType := objType m; bbox := bbox m;
     location := location m; coordinate := coordinate m;
     objSignature := objSignature m; objClassId := objClassId m;
     sensorId := sensorId m; moduleId := moduleId m; placeId := placeId m;
     componentId := componentId m; frameId := frameId m;
     confidence := confidence m; trackingId := trackingId m; ts := ts m;
     objectId := objectId m; sensorStr := sensorStr m;
     otherAttrs := otherAttrs m; videoPath := videoPath m;
     extMsg := extMsg m; extMsgSize := extMsgSize m; pose := pose m;
     embedding := embedding m; objStatusInfo := objStatusInfo m;
     boolExistLaneCross := boolExistLaneCross m;
     boolReverseDrive := boolReverseDrive m; boolExistOverCrowd := v;
     boolExistLongPark := boolExistLongPark m;
     boolExistLoitering := boolExistLoitering m;
     boolExistBreakIn := boolExistBreakIn m;
     boolExistJayWalk := boolExistJayWalk m |}.

Definition set_boolExistLongPark (m : NvDsEventMsgMeta) (v : bool)
  : NvDsEventMsgMeta :=
  {| type := type m; objType := objType m; bbox := bbox m;
     location := location m; coordinate := coordinate m;
     objSignature := objSignature m; objClassId := objClassId m;
     sensorId := sensorId m; moduleId := moduleId m; placeId := placeId m;
     componentId := componentId m; frameId := frameId m;
     confidence := confidence m; trackingId := trackingId m; ts := ts m;
     objectId := objectId m; sensorStr := sensorStr m;
     otherAttrs := otherAttrs m; videoPath := videoPath m;
     extMsg := extMsg m; extMsgSize := extMsgSize m; pose := pose m;
     embedding := embedding m; objStatusInfo := objStatusInfo m;
     boolExistLaneCross := boolExistLaneCross m;
     boolReverseDrive := boolReverseDrive m;
     boolExistOverCrowd := boolExistOverCrowd m; boolExistLongPark := v;
     boolExistLoitering := boolExistLoitering m;
     boolExistBreakIn := boolExistBreakIn m;
     boolExistJayWalk := boolExistJayWalk m |}.

Definition set_boolExistLoitering (m : NvDsEventMsgMeta) (v : bool)
  : NvDsEventMsgMeta :=
  {| type := type m; objType := objType m; bbox := bbox m;
     location := location m; coordinate := coordinate m;
     objSignature := objSignature m; objClassId := objClassId m;
     sensorId := sensorId m; moduleId := moduleId m; placeId := placeId m;
     componentId := componentId m; frameId := frameId m;
     confidence := confidence m; trackingId := trackingId m; ts := ts m;
     objectId := objectId m; sensorStr := sensorStr m;
     otherAttrs := otherAttrs m; videoPath := videoPath m;
     extMsg := extMsg m; extMsgSize := extMsgSize m; pose := pose m;
     embedding := embedding m; objStatusInfo := objStatusInfo m;
     boolExistLaneCross := boolExistLaneCross m;
     boolReverseDrive := boolReverseDrive m;
     boolExistOverCrowd := boolExistOverCrowd m;
     boolExistLongPark := boolExistLongPark m; boolExistLoitering := v;
     boolExistBreakIn := boolExistBreakIn m;
     boolExistJayWalk := boolExistJayWalk m |}.

Definition set_boolExistBreakIn (m : NvDsEventMsgMeta) (v : bool)
  : NvDsEventMsgMeta :=
  {| type := type m; objType := objType m; bbox := bbox m;
     location := location m; coordinate := coordinate m;
     objSignature := objSignature m; objClassId := objClassId m;
     sensorId := sensorId m; moduleId := moduleId m; placeId := placeId m;
     componentId := componentId m; frameId := frameId m;
     confidence := confidence m; trackingId := trackingId m; ts := ts m;
     objectId := objectId m; sensorStr := sensorStr m;
     otherAttrs := otherAttrs m; videoPath := videoPath m;
     extMsg := extMsg m; extMsgSize := extMsgSize m; pose := pose m;
     embedding := embedding m; objStatusInfo := objStatusInfo m;
     boolExistLaneCross := boolExistLaneCross m;
     boolReverseDrive := boolReverseDrive m;
     boolExistOverCrowd := boolExistOverCrowd m;
     boolExistLongPark := boolExistLongPark m;
     boolExistLoitering := boolExistLoitering m; boolExistBreakIn := v;
     boolExistJayWalk := boolExistJayWalk m |}.

Definition set_boolExistJayWalk (m : NvDsEventMsgMeta) (v : bool)
  : NvDsEventMsgMeta :=
  {| type := type m; objType := objType m; bbox := bbox m;
     location := location m; coordinate := coordinate m;
     objSignature := objSignature m; objClassId := objClassId m;
     sensorId := sensorId m; moduleId := moduleId m; placeId := placeId m;
     componentId := componentId m; frameId := frameId m;
     confidence := confidence m; trackingId := trackingId m; ts := ts m;
     objectId := objectId m; sensorStr := sensorStr m;
     otherAttrs := otherAttrs m; videoPath := videoPath m;
     extMsg := extMsg m; extMsgSize := extMsgSize m; pose := pose m;
     embedding := embedding m; objStatusInfo := objStatusInfo m;
     boolExistLaneCross := boolExistLaneCross m;
     boolReverseDrive := boolReverseDrive m;
     boolExistOverCrowd := boolExistOverCrowd m;
     boolExistLongPark := boolExistLongPark m;
     boolExistLoitering := boolExistLoitering m;
     boolExistBreakIn := boolExistBreakIn m; boolExistJayWalk := v |}.

(** ** Constructors

    A constructor runs on the storage of the object being created.  Before
    it runs that storage holds whatever it held (arbitrary content for an
    automatic or heap object, zeros for a static or zero-filled one); the
    constructor is the sequence of assignments of its body, applied to
    those contents.  A field the body does not assign keeps them. *)

(** [_AnalyticsObjectMeta::_AnalyticsObjectMeta()]:
<<
    move_speed = 0;
    arrayLaneNumber[0] = arrayLaneNumber[1] = arrayLaneNumber[2]
                       = arrayLaneNumber[3] = -1;
    laneArraySize = 0;
    reverseLaneNo = -1;
>>
    The chained assignment groups to the right: slot 3 takes -1, then each
    slot to its left takes the value just assigned. *)
Definition _AnalyticsObjectMeta (this : AnalyticsObjectMeta)
  : AnalyticsObjectMeta :=
  let this := set_move_speed this float_zero in
  let this := set_lane this 3%fin (-1) in
  let this := set_lane this 2%fin (arrayLaneNumber this !!! 3%fin) in
  let this := set_lane this 1%fin (arrayLaneNumber this !!! 2%fin) in
  let this := set_lane this 0%fin (arrayLaneNumber this !!! 1%fin) in
  let this := set_laneArraySize this 0 in
  set_reverseLaneNo this (-1).

(** [NvDsEventMsgMeta] declares no constructor.  Its implicit default
    constructor default-initialises the members in order: the scalar,
    pointer and plain-structure members are left as they are, and the one
    member of class type with a constructor, [objStatusInfo], has it run. *)
Definition NvDsEventMsgMeta_default (this : NvDsEventMsgMeta)
  : NvDsEventMsgMeta :=
  set_objStatusInfo this (_AnalyticsObjectMeta (objStatusInfo this)).

(** Zero-filled storage of each structure (all bits zero: integer 0,
    floating-point +0, [NULL], [false]). *)
Definition zero_AnalyticsObjectMeta : AnalyticsObjectMeta :=
  {| objMoveDIrection := 0; objStatus := 0;
     move_length := float_zero; time_gap_move_millisec := float_zero;
     move_speed := float_zero; time_gap_longstay_millisec := float_zero;
     arrayLaneNumber := [# 0; 0; 0; 0];
     laneArraySize := 0; reverseLaneNo := 0 |}.

Definition zero_NvDsEventMsgMeta : NvDsEventMsgMeta :=
  {| type := 0; objType := 0;
     bbox := {| top := float_zero; left := float_zero;
                width := float_zero; height := float_zero |};
     location := {| lat := float_zero; lon := float_zero;
                    alt := float_zero |};
     coordinate := {| NvDsCoordinate_x := float_zero;
                      NvDsCoordinate_y := float_zero;
                      NvDsCoordinate_z := float_zero |};
     objSignature := {| signature := NULL; size := 0 |};
     objClassId := 0; sensorId := 0; moduleId := 0; placeId := 0;
     componentId := 0; frameId := 0; confidence := float_zero;
     trackingId := 0; ts := NULL; objectId := NULL; sensorStr := NULL;
     otherAttrs := NULL; videoPath := NULL; extMsg := NULL; extMsgSize := 0;
     pose := {| joints := NULL; num_joints := 0; pose_type := 0 |};
     embedding := {| embedding_vector := NULL; embedding_length := 0 |};
     objStatusInfo := zero_AnalyticsObjectMeta;
     boolExistLaneCross := false; boolReverseDrive := false;
     boolExistOverCrowd := false; boolExistLongPark := false;
     boolExistLoitering := false; boolExistBreakIn := false;
     boolExistJayWalk := false |}.

(** The seven analytics flags of a record, in declaration order. *)
Definition analytics_flags (m : NvDsEventMsgMeta) : list bool :=
  [ boolExistLaneCross m; boolReverseDrive m; boolExistOverCrowd m;
    boolExistLongPark m; boolExistLoitering m; boolExistBreakIn m;
    boolExistJayWalk m ].

(** Seven assignments, one per flag. *)
Definition set_analytics_flags (m : NvDsEventMsgMeta)
    (lane_cross reverse_drive over_crowd long_park loitering break_in
       jay_walk : bool) : NvDsEventMsgMeta :=
  let m := set_boolExistLaneCross m lane_cross in
  let m := set_boolReverseDrive m reverse_drive in
  let m := set_boolExistOverCrowd m over_crowd in
  let m := set_boolExistLongPark m long_park in
  let m := set_boolExistLoitering m loitering in
  let m := set_boolExistBreakIn m break_in in
  set_boolExistJayWalk m jay_walk.

(** ** The store

    What a pointer of the header may point to: character, number, joint and
    byte arrays, a [GList] of element pointers, and the object structures
    that [extMsg] is documented to carry. *)
Inductive block : Type :=
  | GCharArray (s : string)
  | GDoubleArray (l : list gdouble)
  | FloatArray (l : list float)
  | JointArray (l : list NvDsJoint)
  | GListCells (l : list gpointer)
  | ByteBuffer (l : list Byte.byte)
  | VehicleObject (o : NvDsVehicleObject)
  | PersonObject (o : NvDsPersonObject)
  | FaceObject (o : NvDsFaceObject)
  | VehicleObjectExt (o : NvDsVehicleObjectExt)
  | PersonObjectExt (o : NvDsPersonObjectExt)
  | FaceObjectExt (o : NvDsFaceObjectExt)
  | ProductObject (o : NvDsProductObject)
  | ProductObjectExt (o : NvDsProductObjectExt).

Abbreviation store := (gmap N block).

(** Dereferencing: [NULL] and unmapped addresses point to nothing. *)
Definition deref (s : store) (p : gpointer) : option block :=
  if decide (p = NULL) then None else s !! p.

(** The object-type enumerator that names a structure: the enumerators
    [NVDS_OBJECT_TYPE_VEHICLE], ..., [NVDS_OBJECT_TYPE_PRODUCT_EXT] and the
    structures [NvDsVehicleObject], ..., [NvDsProductObjectExt] correspond
    by name.  Arrays, lists and byte buffers are no object kind. *)
Definition block_objType (b : block) : option NvDsObjectType :=
  match b with
  | VehicleObject _ => Some NVDS_OBJECT_TYPE_VEHICLE
  | PersonObject _ => Some NVDS_OBJECT_TYPE_PERSON
  | FaceObject _ => Some NVDS_OBJECT_TYPE_FACE
  | VehicleObjectExt _ => Some NVDS_OBJECT_TYPE_VEHICLE_EXT
  | PersonObjectExt _ => Some NVDS_OBJECT_TYPE_PERSON_EXT
  | FaceObjectExt _ => Some NVDS_OBJECT_TYPE_FACE_EXT
  | ProductObject _ => Some NVDS_OBJECT_TYPE_PRODUCT
  | ProductObjectExt _ => Some NVDS_OBJECT_TYPE_PRODUCT_EXT
  | _ => None
  end.

(** The number of elements of an array in the store; nothing, or
    something that is no array, has none. *)
Definition element_count (s : store) (p : gpointer) : Z :=
  match deref s p with
  | Some (GDoubleArray l) => Z.of_nat (length l)
  | Some (FloatArray l) => Z.of_nat (length l)
  | Some (JointArray l) => Z.of_nat (length l)
  | _ => 0
  end.

(** ** Attaching and reading *)

(** The extension slot.  "You can attach various types of objects (vehicle,
    person, face, etc.) to an event by setting a pointer to the object in
    extMsg.  Similarly, you can attach a custom object"; [extMsgSize] "holds
    the size of the custom object at extMsg".  The two assignments read
    neither [objType] nor the store. *)
Definition attach_extMsg (m : NvDsEventMsgMeta) (p : gpointer) (n : guint)
  : NvDsEventMsgMeta :=
  set_extMsgSize (set_extMsg m p) n.

(** Reading the slot back: the object the stored pointer designates. *)
Definition read_extMsg (s : store) (m : NvDsEventMsgMeta) : option block :=
  deref s (extMsg m).

(** The kind of the attached object, and whether its enumerator is the one
    the record declares in [objType]. *)
Definition extMsg_kind (s : store) (m : NvDsEventMsgMeta)
  : option NvDsObjectType :=
  read_extMsg s m ≫= block_objType.

Definition extMsg_kind_agrees (s : store) (m : NvDsEventMsgMeta) : bool :=
  match extMsg_kind s m with
  | Some k => NvDsObjectType_value k =? objType m
  | None => false
  end.

(** Signature, pose and embedding: a pointer and a separately written
    length or count. *)
Definition attach_objSignature (m : NvDsEventMsgMeta) (p : gpointer)
    (n : guint) : NvDsEventMsgMeta :=
  set_objSignature m {| signature := p; size := n |}.

Definition attach_pose (m : NvDsEventMsgMeta) (p : gpointer) (n t : gint)
  : NvDsEventMsgMeta :=
  set_pose m {| joints := p; num_joints := n; pose_type := t |}.

Definition attach_embedding (m : NvDsEventMsgMeta) (p : gpointer)
    (n : guint) : NvDsEventMsgMeta :=
  set_embedding m {| embedding_vector := p; embedding_length := n |}.

(** Whether the declared length or count is the number of stored elements. *)
Definition signature_length_agrees (s : store) (m : NvDsEventMsgMeta)
  : bool :=
  size (objSignature m) =? element_count s (signature (objSignature m)).

Definition pose_count_agrees (s : store) (m : NvDsEventMsgMeta) : bool :=
  num_joints (pose m) =? element_count s (joints (pose m)).

Definition embedding_length_agrees (s : store) (m : NvDsEventMsgMeta)
  : bool :=
  embedding_length (embedding m)
  =? element_count s (embedding_vector (embedding m)).

(** ** End of a record's lifetime *)

(** The variable-length storage a record designates: its pointer members,
    in declaration order. *)
Definition owned_pointers (m : NvDsEventMsgMeta) : list gpointer :=
  [ signature (objSignature m); ts m; objectId m; sensorStr m;
    otherAttrs m; videoPath m; extMsg m; joints (pose m);
    embedding_vector (embedding m) ].

(** [NvDsEventMsgMeta] declares no destructor, no "released" member, and
    the header declares no release function.  A record's lifetime ends with
    the implicit destructor, which runs no statement: every member is a
    scalar, a raw pointer or a plain structure of those.  The store after
    the release is the store before it. *)
Definition NvDsEventMsgMeta_release (s : store) (m : NvDsEventMsgMeta)
  : store :=
  s.

(** ** Lane slots as a consumer reads them *)

(** Modelled from the spec: the consumer logic that reads the lane slots is
    not part of the header.  "a count field states how many of the 4 slots
    are meaningful - slots beyond the count are unspecified/ignored": the
    meaningful lanes are the first [laneArraySize] slots. *)
Definition meaningful_lanes (a : AnalyticsObjectMeta) : list gint :=
  take (Z.to_nat (laneArraySize a)) (vec_to_list (arrayLaneNumber a)).

(** ** Sample storage contents, records and stores *)

(** 1.0 as a [float]: 8388608 * 2^-23. *)
Definition float_one : float := S754_finite false 8388608 (-23).

(** Storage left over from an earlier use. *)
Definition stale_AnalyticsObjectMeta : AnalyticsObjectMeta :=
  {| objMoveDIrection := 7; objStatus := 3;
     move_length := float_one; time_gap_move_millisec := float_one;
     move_speed := float_one; time_gap_longstay_millisec := float_one;
     arrayLaneNumber := [# 5; 6; 7; 8];
     laneArraySize := 9; reverseLaneNo := 4 |}.

Definition stale_NvDsEventMsgMeta : NvDsEventMsgMeta :=
  set_boolExistLaneCross
    (set_objStatusInfo zero_NvDsEventMsgMeta stale_AnalyticsObjectMeta) true.

(** An annotation with [laneArraySize] 2, [arrayLaneNumber] [3, 7, -1, -1]
    and [reverseLaneNo] -1. *)
Definition two_lane_annotation : AnalyticsObjectMeta :=
  let a := _AnalyticsObjectMeta zero_AnalyticsObjectMeta in
  let a := set_lane a 0%fin 3 in
  let a := set_lane a 1%fin 7 in
  set_laneArraySize a 2.

(** An annotation whose count was assigned 5. *)
Definition five_count_annotation : AnalyticsObjectMeta :=
  set_laneArraySize (_AnalyticsObjectMeta zero_AnalyticsObjectMeta) 5.

Definition sample_vehicle : NvDsVehicleObject :=
  {| NvDsVehicleObject_type := 16%N; NvDsVehicleObject_make := 16%N;
     NvDsVehicleObject_model := NULL; NvDsVehicleObject_color := NULL;
     NvDsVehicleObject_region := NULL; NvDsVehicleObject_license := NULL |}.

Definition sample_store : store :=
  <[16%N := GCharArray "sedan"]>
  (<[32%N := VehicleObject sample_vehicle]>
  (<[48%N := GDoubleArray [float_one; float_zero]]>
  (<[64%N := ByteBuffer [Byte.x01; Byte.xff; Byte.x00]]> ∅))).

(** A value-initialised record tagged [NVDS_OBJECT_TYPE_FACE]. *)
Definition face_record : NvDsEventMsgMeta :=
  set_objType (NvDsEventMsgMeta_default zero_NvDsEventMsgMeta)
    (NvDsObjectType_value NVDS_OBJECT_TYPE_FACE).

(** A value-initialised record tagged with the custom object kind 0x104. *)
Definition custom_record : NvDsEventMsgMeta :=
  set_objType (NvDsEventMsgMeta_default zero_NvDsEventMsgMeta) 0x104.

(** ** Records in allocated storage

    [NvDsEvent.metadata] is a pointer to an event record: a record can
    itself live in allocated storage.  A heap is the event records, by
    address, and the storage they point into. *)
Record heap : Type := {
  records : gmap N NvDsEventMsgMeta;
  objects : store
}.

(** The pointers a block holds: the pointer members of an object structure
    in declaration order, the elements of a [GList]. *)
Definition block_pointers (b : block) : list gpointer :=
  match b with
  | GListCells l => l
  | VehicleObject o =>
      [ NvDsVehicleObject_type o; NvDsVehicleObject_make o;
        NvDsVehicleObject_model o; NvDsVehicleObject_color o;
        NvDsVehicleObject_region o; NvDsVehicleObject_license o ]
  | PersonObject o =>
      [ NvDsPersonObject_gender o; NvDsPersonObject_hair o;
        NvDsPersonObject_cap o; NvDsPersonObject_apparel o ]
  | FaceObject o =>
      [ NvDsFaceObject_gender o; NvDsFaceObject_hair o;
        NvDsFaceObject_cap o; NvDsFaceObject_glasses o;
        NvDsFaceObject_facialhair o; NvDsFaceObject_name o;
        NvDsFaceObject_eyecolor o ]
  | VehicleObjectExt o =>
      [ NvDsVehicleObjectExt_type o; NvDsVehicleObjectExt_make o;
        NvDsVehicleObjectExt_model o; NvDsVehicleObjectExt_color o;
        NvDsVehicleObjectExt_region o; NvDsVehicleObjectExt_license o;
        NvDsVehicleObjectExt_mask o ]
  | PersonObjectExt o =>
      [ NvDsPersonObjectExt_gender o; NvDsPersonObjectExt_hair o;
        NvDsPersonObjectExt_cap o; NvDsPersonObjectExt_apparel o;
        NvDsPersonObjectExt_mask o ]
  | FaceObjectExt o =>
      [ NvDsFaceObjectExt_gender o; NvDsFaceObjectExt_hair o;
        NvDsFaceObjectExt_cap o; NvDsFaceObjectExt_glasses o;
        NvDsFaceObjectExt_facialhair o; NvDsFaceObjectExt_name o;
        NvDsFaceObjectExt_eyecolor o; NvDsFaceObjectExt_mask o ]
  | ProductObject o =>
      [ NvDsProductObject_brand o; NvDsProductObject_type o;
        NvDsProductObject_shape o ]
  | ProductObjectExt o =>
      [ NvDsProductObjectExt_brand o; NvDsProductObjectExt_type o;
        NvDsProductObjectExt_shape o; NvDsProductObjectExt_mask o ]
  | _ => []
  end.

(** The storage reached through the extension object: its strings and its
    mask list, and the polygons that are the elements of a mask list. *)
Definition extension_pointers (s : store) (m : NvDsEventMsgMeta)
  : list gpointer :=
  match read_extMsg s m with
  | Some b => block_pointers b
  | None => []
  end.

Definition mask_pointers (s : store) (m : NvDsEventMsgMeta)
  : list gpointer :=
  flat_map
    (fun p => match deref s p with
              | Some (GListCells l) => l
              | _ => []
              end)
    (extension_pointers s m).

(** All the variable-length storage of a record: what its own pointer
    members designate and what is reached through the extension object. *)
Definition owned_storage (s : store) (m : NvDsEventMsgMeta)
  : list gpointer :=
  owned_pointers m ++ extension_pointers s m ++ mask_pointers s m.

(** The outcome of releasing a record.  The language gives no behaviour to
    the release of storage that holds no live object: there is no error
    value, the program is undefined. *)
Inductive release_outcome : Type :=
  | Released (h : heap)
  | UndefinedBehaviour.

(** Releasing the record at [p] ([delete p], or [g_free (p)] for storage
    obtained from GLib): on [NULL] nothing happens; on a live record the
    destructor runs, which for [NvDsEventMsgMeta] is the implicit one, and
    the record's own storage is given back; on anything else, a record
    already released included, the behaviour is undefined. *)
Definition delete_NvDsEventMsgMeta (h : heap) (p : gpointer)
  : release_outcome :=
  if decide (p = NULL) then Released h
  else
    match records h !! p with
    | Some m =>
        Released {| records := delete p (records h);
                    objects := NvDsEventMsgMeta_release (objects h) m |}
    | None => UndefinedBehaviour
    end.

(** A store with a masked vehicle: the extended vehicle object at 80 names
    the string at 16 and the mask list at 96, whose one polygon is at 112. *)
Definition sample_vehicle_ext : NvDsVehicleObjectExt :=
  {| NvDsVehicleObjectExt_type := 16%N; NvDsVehicleObjectExt_make := NULL;
     NvDsVehicleObjectExt_model := NULL; NvDsVehicleObjectExt_color := NULL;
     NvDsVehicleObjectExt_region := NULL;
     NvDsVehicleObjectExt_license := NULL;
     NvDsVehicleObjectExt_mask := 96%N |}.

Definition masked_store : store :=
  <[80%N := VehicleObjectExt sample_vehicle_ext]>
  (<[96%N := GListCells [112%N]]>
  (<[112%N := GDoubleArray [float_zero; float_one; float_one; float_zero]]>
     sample_store)).

(** A record tagged [NVDS_OBJECT_TYPE_VEHICLE_EXT] that designates the
    masked vehicle and the signature array at 48, allocated at 128. *)
Definition masked_vehicle_record : NvDsEventMsgMeta :=
  attach_objSignature
    (attach_extMsg
       (set_objType (NvDsEventMsgMeta_default zero_NvDsEventMsgMeta)
          (NvDsObjectType_value NVDS_OBJECT_TYPE_VEHICLE_EXT))
       80%N 56)
    48%N 2.

Definition sample_heap : heap :=
  {| records := <[128%N := masked_vehicle_record]> ∅;
     objects := masked_store |}.

(** * Theorems *)

(** ** Kind tags *)

Lemma enum_values_NvDsEventType :
  map NvDsEventType_value (map fst NvDsEventType_decl)
  = [0; 1; 2; 3; 4; 5; 6; 0x100; 0x101; 0x102; 0x7FFFFFFF].
Proof. reflexivity. Qed.

Lemma enum_values_NvDsObjectType :
  map NvDsObjectType_value (map fst NvDsObjectType_decl)
  = [0; 1; 2; 3; 4; 5; 6; 7; 8; 9; 10; 0x100; 0x101; 0x102; 0x103;
     0x7FFFFFFF].
Proof. reflexivity. Qed.

Lemma enum_values_NvDsPayloadType :
  map NvDsPayloadType_value (map fst NvDsPayloadType_decl)
  = [0; 1; 2; 0x100; 0x101; 0x7FFFFFFF].
Proof. reflexivity. Qed.

(** The declaration lists name every enumerator. *)
Lemma NvDsEventType_decl_complete (e : NvDsEventType) :
  e ∈ map fst NvDsEventType_decl.
Proof. destruct e; cbn; set_solver. Qed.

Lemma NvDsObjectType_decl_complete (e : NvDsObjectType) :
  e ∈ map fst NvDsObjectType_decl.
Proof. destruct e; cbn; set_solver. Qed.

Lemma NvDsPayloadType_decl_complete (e : NvDsPayloadType) :
  e ∈ map fst NvDsPayloadType_decl.
Proof. destruct e; cbn; set_solver. Qed.

(** The enumerators declared before each [*_RESERVED] marker. *)
Lemma builtin_NvDsEventType :
  declared_before NVDS_EVENT_RESERVED NvDsEventType_decl
  = [ NVDS_EVENT_ENTRY; NVDS_EVENT_EXIT; NVDS_EVENT_MOVING;
      NVDS_EVENT_STOPPED; NVDS_EVENT_EMPTY; NVDS_EVENT_PARKED;
      NVDS_EVENT_RESET ].
Proof. reflexivity. Qed.

Lemma builtin_NvDsObjectType :
  declared_before NVDS_OBJECT_TYPE_RESERVED NvDsObjectType_decl
  = [ NVDS_OBJECT_TYPE_VEHICLE; NVDS_OBJECT_TYPE_PERSON;
      NVDS_OBJECT_TYPE_FACE; NVDS_OBJECT_TYPE_BAG;
      NVDS_OBJECT_TYPE_BICYCLE; NVDS_OBJECT_TYPE_ROADSIGN;
      NVDS_OBJECT_TYPE_VEHICLE_EXT; NVDS_OBJECT_TYPE_PERSON_EXT;
      NVDS_OBJECT_TYPE_FACE_EXT; NVDS_OBJECT_TYPE_PRODUCT;
      NVDS_OBJECT_TYPE_PRODUCT_EXT ].
Proof. reflexivity. Qed.

Lemma builtin_NvDsPayloadType :
  declared_before NVDS_PAYLOAD_RESERVED NvDsPayloadType_decl
  = [ NVDS_PAYLOAD_DEEPSTREAM; NVDS_PAYLOAD_DEEPSTREAM_MINIMAL;
      NVDS_PAYLOAD_DEEPSTREAM_PROTOBUF ].
Proof. reflexivity. Qed.

Lemma custom_event_value_spec (v : Z) :
  custom_event_value v = true <-> 0x101 <= v.
Proof.
  unfold custom_event_value.
  change (NvDsEventType_value NVDS_EVENT_RESERVED) with 0x100.
  rewrite Z.ltb_lt. lia.
Qed.

Lemma custom_object_value_spec (v : Z) :
  custom_object_value v = true <-> 0x101 <= v.
Proof.
  unfold custom_object_value.
  change (NvDsObjectType_value NVDS_OBJECT_TYPE_RESERVED) with 0x100.
  rewrite Z.ltb_lt. lia.
Qed.

Lemma custom_payload_value_spec (v : Z) :
  custom_payload_value v = true <-> 0x101 <= v.
Proof.
  unfold custom_payload_value.
  change (NvDsPayloadType_value NVDS_PAYLOAD_RESERVED) with 0x100.
  rewrite Z.ltb_lt. lia.
Qed.

(** C1, as stated, fails at the value 0x100: the specification's range
    "0x100 and above" counts it as consumer/custom, while the header makes
    it the [NVDS_EVENT_RESERVED] marker itself and requires custom values
    to be greater than it. *)
Lemma reserved_marker_is_not_custom :
  spec_custom_range (NvDsEventType_value NVDS_EVENT_RESERVED) = true
  /\ custom_event_value (NvDsEventType_value NVDS_EVENT_RESERVED) = false.
Proof. split; reflexivity. Qed.

(** C1 (amended): in each of the three enumerations, every enumerator
    declared before the [*_RESERVED] marker has a value in 0..0xFF; the
    marker is 0x100; the custom values are those strictly greater than the
    marker, that is 0x101 and above, and every enumerator the header
    declares after the marker is one of them; the [*_FORCE32] sentinel is
    0x7FFFFFFF and no other enumerator has that value. *)
Theorem kind_tag_ranges :
  (Forall (fun e => 0 <= NvDsEventType_value e <= 0xFF)
     (declared_before NVDS_EVENT_RESERVED NvDsEventType_decl)
   /\ Forall (fun e => 0 <= NvDsObjectType_value e <= 0xFF)
        (declared_before NVDS_OBJECT_TYPE_RESERVED NvDsObjectType_decl)
   /\ Forall (fun e => 0 <= NvDsPayloadType_value e <= 0xFF)
        (declared_before NVDS_PAYLOAD_RESERVED NvDsPayloadType_decl))
  /\ (NvDsEventType_value NVDS_EVENT_RESERVED = 0x100
      /\ NvDsObjectType_value NVDS_OBJECT_TYPE_RESERVED = 0x100
      /\ NvDsPayloadType_value NVDS_PAYLOAD_RESERVED = 0x100)
  /\ (forall v : Z,
        (custom_event_value v = true <-> 0x101 <= v)
        /\ (custom_object_value v = true <-> 0x101 <= v)
        /\ (custom_payload_value v = true <-> 0x101 <= v))
  /\ (Forall (fun e => custom_event_value (NvDsEventType_value e) = true)
        (declared_after NVDS_EVENT_RESERVED NvDsEventType_decl)
      /\ Forall (fun e => custom_object_value (NvDsObjectType_value e) = true)
           (declared_after NVDS_OBJECT_TYPE_RESERVED NvDsObjectType_decl)
      /\ Forall
           (fun e => custom_payload_value (NvDsPayloadType_value e) = true)
           (declared_after NVDS_PAYLOAD_RESERVED NvDsPayloadType_decl))
  /\ (NvDsEventType_value NVDS_EVENT_FORCE32 = 0x7FFFFFFF
      /\ NvDsObjectType_value NVDS_OBEJCT_TYPE_FORCE32 = 0x7FFFFFFF
      /\ NvDsPayloadType_value NVDS_PAYLOAD_FORCE32 = 0x7FFFFFFF)
  /\ (List.filter (fun e => NvDsEventType_value e =? 0x7FFFFFFF)
        (map fst NvDsEventType_decl) = [NVDS_EVENT_FORCE32]
      /\ List.filter (fun e => NvDsObjectType_value e =? 0x7FFFFFFF)
           (map fst NvDsObjectType_decl) = [NVDS_OBEJCT_TYPE_FORCE32]
      /\ List.filter (fun e => NvDsPayloadType_value e =? 0x7FFFFFFF)
           (map fst NvDsPayloadType_decl) = [NVDS_PAYLOAD_FORCE32]).
Proof.
  split; [| split; [| split; [| split; [| split]]]].
  - rewrite builtin_NvDsEventType, builtin_NvDsObjectType,
      builtin_NvDsPayloadType.
    repeat split;
      repeat first
        [ apply List.Forall_nil
        | apply List.Forall_cons; [vm_compute; split; discriminate |] ].
  - repeat split.
  - intros v. split; [| split].
    + apply custom_event_value_spec.
    + apply custom_object_value_spec.
    + apply custom_payload_value_spec.
  - repeat split; cbn; repeat constructor.
  - repeat split.
  - repeat split.
Qed.

(** ** The analytics block's constructor *)

Lemma constructor_lanes (this : AnalyticsObjectMeta) :
  arrayLaneNumber (_AnalyticsObjectMeta this) = [# -1; -1; -1; -1].
Proof.
  destruct this as [d st ml tm ms tl lanes n r].
  inv_vec lanes; intros l0 l1 l2 l3. reflexivity.
Qed.

(** C7, as stated, fails on storage that was not zero beforehand: the
    constructor leaves [move_length] as it finds it. *)
Lemma default_move_length_not_zeroed :
  move_length (_AnalyticsObjectMeta stale_AnalyticsObjectMeta) <> float_zero.
Proof. discriminate. Qed.

(** C7 (amended): a default-constructed analytics block has its four
    lane-identifier slots at -1, [laneArraySize] 0, [reverseLaneNo] -1 and
    [move_speed] 0, whatever the storage held before. *)
Theorem default_analytics_values (this : AnalyticsObjectMeta) :
  let a := _AnalyticsObjectMeta this in
  Forall (fun lane => lane = -1) (vec_to_list (arrayLaneNumber a))
  /\ length (vec_to_list (arrayLaneNumber a)) = 4%nat
  /\ laneArraySize a = 0
  /\ reverseLaneNo a = -1
  /\ move_speed a = float_zero.
Proof.
  cbv zeta. rewrite constructor_lanes.
  split; [repeat constructor | repeat split].
Qed.

(** C10: the constructor assigns [move_speed], the four [arrayLaneNumber]
    slots, [laneArraySize] and [reverseLaneNo], and nothing else:
    [objMoveDIrection], [objStatus], [move_length],
    [time_gap_move_millisec] and [time_gap_longstay_millisec] come out as
    the storage held them, so their values are not determined by the
    construction. *)
Theorem constructor_assigns_exactly (this : AnalyticsObjectMeta) :
  _AnalyticsObjectMeta this
  = {| objMoveDIrection := objMoveDIrection this;
       objStatus := objStatus this;
       move_length := move_length this;
       time_gap_move_millisec := time_gap_move_millisec this;
       move_speed := float_zero;
       time_gap_longstay_millisec := time_gap_longstay_millisec this;
       arrayLaneNumber := [# -1; -1; -1; -1];
       laneArraySize := 0;
       reverseLaneNo := -1 |}.
Proof.
  destruct this as [d st ml tm ms tl lanes n r].
  inv_vec lanes; intros l0 l1 l2 l3. reflexivity.
Qed.

(** Two storages that differ in an unassigned member give two different
    default-constructed blocks. *)
Lemma constructor_result_depends_on_storage :
  _AnalyticsObjectMeta zero_AnalyticsObjectMeta
  <> _AnalyticsObjectMeta stale_AnalyticsObjectMeta.
Proof. discriminate. Qed.

(** ** The analytics flags of a record *)

Lemma default_record_flags (this : NvDsEventMsgMeta) :
  analytics_flags (NvDsEventMsgMeta_default this) = analytics_flags this.
Proof. reflexivity. Qed.

Lemma set_analytics_flags_read (m : NvDsEventMsgMeta)
    (b1 b2 b3 b4 b5 b6 b7 : bool) :
  analytics_flags (set_analytics_flags m b1 b2 b3 b4 b5 b6 b7)
  = [b1; b2; b3; b4; b5; b6; b7].
Proof. reflexivity. Qed.

(** C9, as stated, fails on storage that was not zero beforehand: the
    record's implicit constructor assigns no flag, so a flag that was set
    in the storage is still set in the new record. *)
Lemma default_record_flag_not_false :
  analytics_flags (NvDsEventMsgMeta_default stale_NvDsEventMsgMeta)
  <> [false; false; false; false; false; false; false].
Proof. discriminate. Qed.

(** C9 (amended): constructing a record assigns none of the seven
    analytics flags: they come out as the storage held them, all false when
    the storage was zero-filled.  The flags are independent: any of the 128
    combinations can be written to one record and read back, and assigning
    one flag leaves the other six as they were. *)
Theorem analytics_flags_independent (m : NvDsEventMsgMeta)
    (b1 b2 b3 b4 b5 b6 b7 : bool) :
  analytics_flags (NvDsEventMsgMeta_default m) = analytics_flags m
  /\ analytics_flags (NvDsEventMsgMeta_default zero_NvDsEventMsgMeta)
     = [false; false; false; false; false; false; false]
  /\ analytics_flags (set_analytics_flags m b1 b2 b3 b4 b5 b6 b7)
     = [b1; b2; b3; b4; b5; b6; b7]
  /\ analytics_flags (set_boolExistLaneCross m b1)
     = <[0%nat := b1]> (analytics_flags m)
  /\ analytics_flags (set_boolReverseDrive m b2)
     = <[1%nat := b2]> (analytics_flags m)
  /\ analytics_flags (set_boolExistOverCrowd m b3)
     = <[2%nat := b3]> (analytics_flags m)
  /\ analytics_flags (set_boolExistLongPark m b4)
     = <[3%nat := b4]> (analytics_flags m)
  /\ analytics_flags (set_boolExistLoitering m b5)
     = <[4%nat := b5]> (analytics_flags m)
  /\ analytics_flags (set_boolExistBreakIn m b6)
     = <[5%nat := b6]> (analytics_flags m)
  /\ analytics_flags (set_boolExistJayWalk m b7)
     = <[6%nat := b7]> (analytics_flags m).
Proof.
  split; [apply default_record_flags |].
  split; [reflexivity |].
  split; [apply set_analytics_flags_read |].
  repeat split.
Qed.

(** ** The extension slot *)

Lemma attach_extMsg_fields (m : NvDsEventMsgMeta) (p : gpointer) (n : guint) :
  extMsg (attach_extMsg m p n) = p
  /\ extMsgSize (attach_extMsg m p n) = n
  /\ objType (attach_extMsg m p n) = objType m.
Proof. repeat split. Qed.

(** Only [extMsg] and [extMsgSize] change: writing the old two values back
    gives the old record. *)
Lemma attach_extMsg_restore (m : NvDsEventMsgMeta) (p : gpointer)
    (n : guint) :
  attach_extMsg (attach_extMsg m p n) (extMsg m) (extMsgSize m) = m.
Proof. destruct m; reflexivity. Qed.

Lemma extMsg_kind_agrees_spec (s : store) (m : NvDsEventMsgMeta) :
  extMsg_kind_agrees s m = true
  <-> exists k, extMsg_kind s m = Some k
                /\ NvDsObjectType_value k = objType m.
Proof.
  unfold extMsg_kind_agrees. destruct (extMsg_kind s m) as [k |].
  - rewrite Z.eqb_eq. split.
    + intros Hk. exists k. split; [reflexivity | exact Hk].
    + intros (k' & Hk' & Hv). injection Hk' as ->. exact Hv.
  - split; [discriminate |]. intros (k & Hk & _). discriminate.
Qed.

(** C2, as stated, fails: a record tagged [NVDS_OBJECT_TYPE_FACE] to which
    a vehicle object is attached holds a variant whose kind is not the
    record's declared object-kind tag. *)
Lemma vehicle_on_face_record_kind_differs :
  let m := attach_extMsg face_record 32%N 48 in
  objType m = NvDsObjectType_value NVDS_OBJECT_TYPE_FACE
  /\ extMsg_kind sample_store m = Some NVDS_OBJECT_TYPE_VEHICLE
  /\ extMsg_kind_agrees sample_store m = false.
Proof. repeat split. Qed.

(** C2 (amended): attaching stores the pointer and the size as given and
    leaves the object-kind tag as it was; reading the slot back gives the
    object that was attached, hence its kind and its field values.  The kind
    of the attached variant equals the record's declared tag exactly when
    the producer attached an object of that kind. *)
Theorem attach_extMsg_read_back (s : store) (m : NvDsEventMsgMeta)
    (p : gpointer) (n : guint) :
  let m' := attach_extMsg m p n in
  extMsg m' = p
  /\ extMsgSize m' = n
  /\ objType m' = objType m
  /\ read_extMsg s m' = deref s p
  /\ extMsg_kind s m' = deref s p ≫= block_objType
  /\ (extMsg_kind_agrees s m' = true
      <-> exists k, deref s p ≫= block_objType = Some k
                    /\ NvDsObjectType_value k = objType m).
Proof.
  cbv zeta. repeat split; try reflexivity.
  - intros H. apply extMsg_kind_agrees_spec in H. exact H.
  - intros H. apply extMsg_kind_agrees_spec. exact H.
Qed.

(** C4, as stated, fails: attaching a vehicle object to a record tagged
    [NVDS_OBJECT_TYPE_FACE] is accepted; the record is modified and the
    vehicle is what the slot reads back. *)
Lemma vehicle_on_face_record_accepted :
  attach_extMsg face_record 32%N 48 <> face_record
  /\ read_extMsg sample_store (attach_extMsg face_record 32%N 48)
     = Some (VehicleObject sample_vehicle).
Proof. split; [discriminate | reflexivity]. Qed.

(** C4 (amended): attaching a variant whose kind differs from the record's
    declared object-kind tag is accepted like any other: the pointer and
    size are stored, the slot reads back the mismatched object, and every
    other field, the tag included, is left as it was. *)
Theorem attach_extMsg_mismatch_stored (s : store) (m : NvDsEventMsgMeta)
    (p : gpointer) (n : guint) (k : NvDsObjectType) :
  deref s p ≫= block_objType = Some k ->
  NvDsObjectType_value k <> objType m ->
  let m' := attach_extMsg m p n in
  extMsg m' = p
  /\ extMsgSize m' = n
  /\ extMsg_kind s m' = Some k
  /\ extMsg_kind_agrees s m' = false
  /\ objType m' = objType m
  /\ attach_extMsg m' (extMsg m) (extMsgSize m) = m.
Proof.
  intros Hk Hne. cbv zeta.
  split; [reflexivity |]. split; [reflexivity |].
  split; [exact Hk |].
  split.
  - unfold extMsg_kind_agrees.
    change (extMsg_kind s (attach_extMsg m p n))
      with (deref s p ≫= block_objType).
    rewrite Hk. apply Z.eqb_neq. exact Hne.
  - split; [reflexivity | apply attach_extMsg_restore].
Qed.

(** The vehicle object of the sample store on the record tagged
    [NVDS_OBJECT_TYPE_FACE]. *)
Lemma attach_extMsg_mismatch_stored_witness :
  deref sample_store 32%N ≫= block_objType = Some NVDS_OBJECT_TYPE_VEHICLE
  /\ NvDsObjectType_value NVDS_OBJECT_TYPE_VEHICLE <> objType face_record
  /\ let m' := attach_extMsg face_record 32%N 48 in
     extMsg m' = 32%N
     /\ extMsgSize m' = 48
     /\ extMsg_kind sample_store m' = Some NVDS_OBJECT_TYPE_VEHICLE
     /\ extMsg_kind_agrees sample_store m' = false
     /\ objType m' = objType face_record
     /\ attach_extMsg m' (extMsg face_record) (extMsgSize face_record)
        = face_record.
Proof.
  split; [reflexivity |].
  split; [vm_compute; discriminate |].
  apply (attach_extMsg_mismatch_stored sample_store face_record 32%N 48
           NVDS_OBJECT_TYPE_VEHICLE).
  - reflexivity.
  - vm_compute. discriminate.
Defined.

(** ** Signature, pose and embedding *)

Lemma attach_objSignature_restore (m : NvDsEventMsgMeta) (p : gpointer)
    (n : guint) :
  attach_objSignature (attach_objSignature m p n)
    (signature (objSignature m)) (size (objSignature m)) = m.
Proof. destruct m as [? ? ? ? ? [? ?]]; reflexivity. Qed.

Lemma attach_pose_restore (m : NvDsEventMsgMeta) (p : gpointer)
    (n t : gint) :
  attach_pose (attach_pose m p n t)
    (joints (pose m)) (num_joints (pose m)) (pose_type (pose m)) = m.
Proof.
  destruct m; cbn.
  match goal with |- context [joints ?x] => destruct x end.
  reflexivity.
Qed.

Lemma attach_embedding_restore (m : NvDsEventMsgMeta) (p : gpointer)
    (n : guint) :
  attach_embedding (attach_embedding m p n)
    (embedding_vector (embedding m)) (embedding_length (embedding m)) = m.
Proof.
  destruct m; cbn.
  match goal with |- context [embedding_vector ?x] => destruct x end.
  reflexivity.
Qed.

(** C3, as stated, fails: a signature array of two values attached with the
    declared size 3 is accepted; the record is modified and its declared
    size is not the number of stored values. *)
Lemma signature_length_mismatch_accepted :
  let m := NvDsEventMsgMeta_default zero_NvDsEventMsgMeta in
  let m' := attach_objSignature m 48%N 3 in
  m' <> m
  /\ size (objSignature m') = 3
  /\ element_count sample_store (signature (objSignature m')) = 2
  /\ signature_length_agrees sample_store m' = false.
Proof. cbv zeta. split; [discriminate | repeat split]. Qed.

(** C3 (amended): the declared length or count of a signature, pose or
    embedding is a member written separately from the pointer: an attach
    stores the pair as given, whether or not the two agree, and changes
    only that attachment.  The declared length equals the number of stored
    elements exactly when the producer supplied that number. *)
Theorem attachments_store_given_length (s : store) (m : NvDsEventMsgMeta)
    (p : gpointer) (n : guint) (c t : gint) :
  (objSignature (attach_objSignature m p n) = {| signature := p; size := n |}
   /\ (signature_length_agrees s (attach_objSignature m p n) = true
       <-> n = element_count s p)
   /\ attach_objSignature (attach_objSignature m p n)
        (signature (objSignature m)) (size (objSignature m)) = m)
  /\ (pose (attach_pose m p c t)
      = {| joints := p; num_joints := c; pose_type := t |}
      /\ (pose_count_agrees s (attach_pose m p c t) = true
          <-> c = element_count s p)
      /\ attach_pose (attach_pose m p c t)
           (joints (pose m)) (num_joints (pose m)) (pose_type (pose m)) = m)
  /\ (embedding (attach_embedding m p n)
      = {| embedding_vector := p; embedding_length := n |}
      /\ (embedding_length_agrees s (attach_embedding m p n) = true
          <-> n = element_count s p)
      /\ attach_embedding (attach_embedding m p n)
           (embedding_vector (embedding m))
           (embedding_length (embedding m)) = m).
Proof.
  split; [| split].
  - split; [reflexivity |]. split; [| apply attach_objSignature_restore].
    unfold signature_length_agrees. cbn. apply Z.eqb_eq.
  - split; [reflexivity |]. split; [| apply attach_pose_restore].
    unfold pose_count_agrees. cbn. apply Z.eqb_eq.
  - split; [reflexivity |]. split; [| apply attach_embedding_restore].
    unfold embedding_length_agrees. cbn. apply Z.eqb_eq.
Qed.

(** ** Release *)

Lemma delete_live_record (h : heap) (p : gpointer) (m : NvDsEventMsgMeta) :
  p <> NULL ->
  records h !! p = Some m ->
  delete_NvDsEventMsgMeta h p
  = Released {| records := delete p (records h); objects := objects h |}.
Proof.
  intros Hp Hm. unfold delete_NvDsEventMsgMeta.
  rewrite decide_False by exact Hp. rewrite Hm. reflexivity.
Qed.

Lemma delete_dead_record (h : heap) (p : gpointer) :
  p <> NULL ->
  records h !! p = None ->
  delete_NvDsEventMsgMeta h p = UndefinedBehaviour.
Proof.
  intros Hp Hm. unfold delete_NvDsEventMsgMeta.
  rewrite decide_False by exact Hp. rewrite Hm. reflexivity.
Qed.

(** C5, as stated, fails: releasing the record at 128 gives back the
    record and nothing it owns: its signature vector (48), its extension
    object (80), the string (16), the mask list (96) and the polygon (112)
    reached through the extension are all still allocated; and a second
    release of the same record is not reported as an error, it is
    undefined. *)
Lemma release_keeps_owned_storage_and_repeat_undefined :
  let h' := {| records := ∅; objects := masked_store |} in
  delete_NvDsEventMsgMeta sample_heap 128%N = Released h'
  /\ owned_storage masked_store masked_vehicle_record
     = [48; 0; 0; 0; 0; 0; 80; 0; 0; 16; 0; 0; 0; 0; 0; 96; 112]%N
  /\ deref (objects h') 48%N = Some (GDoubleArray [float_one; float_zero])
  /\ deref (objects h') 80%N = Some (VehicleObjectExt sample_vehicle_ext)
  /\ deref (objects h') 16%N = Some (GCharArray "sedan")
  /\ deref (objects h') 96%N = Some (GListCells [112%N])
  /\ deref (objects h') 112%N
     = Some (GDoubleArray [float_zero; float_one; float_one; float_zero])
  /\ delete_NvDsEventMsgMeta h' 128%N = UndefinedBehaviour.
Proof. cbv zeta. repeat split. Qed.

(** C5 (amended): releasing a live event record gives back the record's
    own storage, once, and nothing else: the other records and the whole
    store are as before, so every piece of variable-length storage the
    record owns (signature vector, strings, joints, embedding vector, the
    extension object and the strings, mask lists and polygons reached
    through it) is still allocated.  The record holds no released state: a
    second release of the same record is not detected or reported, its
    behaviour is undefined. *)
Theorem release_frees_record_only (h : heap) (p : gpointer)
    (m : NvDsEventMsgMeta) :
  p <> NULL ->
  records h !! p = Some m ->
  exists h' : heap,
    delete_NvDsEventMsgMeta h p = Released h'
    /\ records h' !! p = None
    /\ (forall q : gpointer, q <> p -> records h' !! q = records h !! q)
    /\ objects h' = objects h
    /\ Forall (fun q => deref (objects h') q = deref (objects h) q)
         (owned_storage (objects h) m)
    /\ delete_NvDsEventMsgMeta h' p = UndefinedBehaviour.
Proof.
  intros Hp Hm.
  exists {| records := delete p (records h); objects := objects h |}.
  split; [apply (delete_live_record h p m Hp Hm) |].
  split; [apply lookup_delete_eq |].
  split; [intros q Hq; apply lookup_delete_ne; congruence |].
  split; [reflexivity |].
  split.
  - apply Forall_forall. intros q _. reflexivity.
  - apply delete_dead_record; [exact Hp |]. apply lookup_delete_eq.
Qed.

(** The masked vehicle record of the sample heap, at 128. *)
Lemma release_frees_record_only_witness :
  128%N <> NULL
  /\ records sample_heap !! 128%N = Some masked_vehicle_record
  /\ exists h' : heap,
       delete_NvDsEventMsgMeta sample_heap 128%N = Released h'
       /\ records h' !! 128%N = None
       /\ (forall q : gpointer,
              q <> 128%N -> records h' !! q = records sample_heap !! q)
       /\ objects h' = objects sample_heap
       /\ Forall
            (fun q => deref (objects h') q = deref (objects sample_heap) q)
            (owned_storage (objects sample_heap) masked_vehicle_record)
       /\ delete_NvDsEventMsgMeta h' 128%N = UndefinedBehaviour.
Proof.
  split; [discriminate |].
  split; [reflexivity |].
  apply (release_frees_record_only sample_heap 128%N masked_vehicle_record).
  - discriminate.
  - reflexivity.
Defined.

(** ** Custom payloads *)

(** C6: for a record tagged with a custom kind (tag >= 0x100), a byte
    buffer attached with an explicit size is carried as that pointer and
    that size; reading the slot gives the same bytes, for any bytes and any
    size, and they are the same after the record's release.  The tag and the
    bytes play no part in the attach. *)
Theorem custom_payload_roundtrip (s : store) (m : NvDsEventMsgMeta)
    (p : gpointer) (bytes : list Byte.byte) (n : guint) :
  0x100 <= objType m ->
  deref s p = Some (ByteBuffer bytes) ->
  let m' := attach_extMsg m p n in
  extMsg m' = p
  /\ extMsgSize m' = n
  /\ objType m' = objType m
  /\ read_extMsg s m' = Some (ByteBuffer bytes)
  /\ extMsg_kind s m' = None
  /\ deref (NvDsEventMsgMeta_release s m') (extMsg m')
     = Some (ByteBuffer bytes).
Proof.
  intros _ Hp. cbv zeta.
  change (read_extMsg s (attach_extMsg m p n)) with (deref s p).
  change (extMsg_kind s (attach_extMsg m p n))
    with (deref s p ≫= block_objType).
  change (extMsg (attach_extMsg m p n)) with p.
  unfold NvDsEventMsgMeta_release. rewrite Hp.
  repeat split.
Qed.

(** Three bytes attached to a record of the custom kind 0x104. *)
Lemma custom_payload_roundtrip_witness :
  0x100 <= objType custom_record
  /\ deref sample_store 64%N
     = Some (ByteBuffer [Byte.x01; Byte.xff; Byte.x00])
  /\ let m' := attach_extMsg custom_record 64%N 3 in
     extMsg m' = 64%N
     /\ extMsgSize m' = 3
     /\ objType m' = objType custom_record
     /\ read_extMsg sample_store m'
        = Some (ByteBuffer [Byte.x01; Byte.xff; Byte.x00])
     /\ extMsg_kind sample_store m' = None
     /\ deref (NvDsEventMsgMeta_release sample_store m') (extMsg m')
        = Some (ByteBuffer [Byte.x01; Byte.xff; Byte.x00]).
Proof.
  split; [vm_compute; discriminate |].
  split; [reflexivity |].
  apply (custom_payload_roundtrip sample_store custom_record 64%N
           [Byte.x01; Byte.xff; Byte.x00] 3).
  - vm_compute. discriminate.
  - reflexivity.
Defined.

(** ** Lane slots *)

Lemma meaningful_lanes_length_le (a : AnalyticsObjectMeta) :
  (length (meaningful_lanes a) <= 4)%nat.
Proof.
  unfold meaningful_lanes. rewrite length_take, length_vec_to_list. lia.
Qed.

Lemma meaningful_lanes_length (a : AnalyticsObjectMeta) :
  0 <= laneArraySize a <= 4 ->
  Z.of_nat (length (meaningful_lanes a)) = laneArraySize a.
Proof.
  intros Hn. unfold meaningful_lanes.
  rewrite length_take, length_vec_to_list. lia.
Qed.

Lemma meaningful_lanes_set_lane (a : AnalyticsObjectMeta) (i : fin 4)
    (v : gint) :
  laneArraySize a <= Z.of_nat (fin_to_nat i) ->
  meaningful_lanes (set_lane a i v) = meaningful_lanes a.
Proof.
  intros Hi. unfold meaningful_lanes. cbn.
  rewrite vec_to_list_insert. apply take_insert_ge. lia.
Qed.

(** C8, as stated, fails: [laneArraySize] is a plain [int] that any value
    can be assigned to; with 5 in it the count is above 4 and is not the
    number of meaningful slots. *)
Lemma lane_count_above_four :
  ~ laneArraySize five_count_annotation <= 4
  /\ Z.of_nat (length (meaningful_lanes five_count_annotation))
     <> laneArraySize five_count_annotation.
Proof.
  split.
  - change (~ 5 <= 4). lia.
  - change (4 <> 5). lia.
Qed.

Lemma meaningful_lanes_lookup (a : AnalyticsObjectMeta) (j : nat) :
  meaningful_lanes a !! j
  = if decide (Z.of_nat j < laneArraySize a)
    then vec_to_list (arrayLaneNumber a) !! j
    else None.
Proof.
  unfold meaningful_lanes. rewrite lookup_take.
  repeat case_decide; first [reflexivity | lia].
Qed.

Lemma meaningful_lanes_length_eq (a : AnalyticsObjectMeta) :
  Z.of_nat (length (meaningful_lanes a))
  = Z.min (Z.max 0 (laneArraySize a)) 4.
Proof.
  unfold meaningful_lanes. rewrite length_take, length_vec_to_list. lia.
Qed.

(** C8 (amended): the meaningful lanes are the first [laneArraySize] of the
    four slots, for every annotation and every count: at most four, exactly
    [laneArraySize] of them when that count lies in 0..4, which the
    structure does not enforce, none for a negative count and all four for
    a count above 4.  A slot at an index at or beyond the count is ignored:
    it is not among the meaningful lanes, and assigning it any value
    changes nothing a consumer reads.  With [laneArraySize] 2 and
    [arrayLaneNumber] [3, 7, -1, -1] the meaningful lanes are 3 and 7. *)
Theorem lanes_beyond_count_ignored (a : AnalyticsObjectMeta) :
  (length (meaningful_lanes a) <= 4)%nat
  /\ Z.of_nat (length (meaningful_lanes a))
     = Z.min (Z.max 0 (laneArraySize a)) 4
  /\ (0 <= laneArraySize a <= 4 ->
      Z.of_nat (length (meaningful_lanes a)) = laneArraySize a)
  /\ (forall j : nat,
         meaningful_lanes a !! j
         = if decide (Z.of_nat j < laneArraySize a)
           then vec_to_list (arrayLaneNumber a) !! j
           else None)
  /\ (forall (i : fin 4) (v : gint),
         laneArraySize a <= Z.of_nat (fin_to_nat i) ->
         meaningful_lanes (set_lane a i v) = meaningful_lanes a)
  /\ meaningful_lanes two_lane_annotation = [3; 7].
Proof.
  split; [apply meaningful_lanes_length_le |].
  split; [apply meaningful_lanes_length_eq |].
  split; [apply meaningful_lanes_length |].
  split; [apply meaningful_lanes_lookup |].
  split; [| reflexivity].
  intros i v Hi. apply meaningful_lanes_set_lane. exact Hi.
Qed.

(** The two-lane annotation: two meaningful lanes, slots 2 and 3 ignored. *)
Lemma lanes_beyond_count_ignored_witness :
  Z.of_nat (length (meaningful_lanes two_lane_annotation)) = 2
  /\ meaningful_lanes two_lane_annotation !! 2%nat = None
  /\ meaningful_lanes (set_lane two_lane_annotation 2%fin 99)
     = meaningful_lanes two_lane_annotation
  /\ meaningful_lanes (set_lane two_lane_annotation 3%fin 99)
     = meaningful_lanes two_lane_annotation.
Proof.
  pose proof (lanes_beyond_count_ignored two_lane_annotation)
    as (_ & _ & Hlen & Hlookup & Hset & _).
  split; [apply Hlen; vm_compute; split; discriminate |].
  split; [rewrite Hlookup; reflexivity |].
  split; apply Hset; vm_compute; discriminate.
Defined.

(** * Further properties of the header *)

(** ** Implicit numbering of enumerators *)

(** In a declaration without initialisers and without a repeated name, the
    enumerator at position [i] is numbered [next + i]. *)
Lemma enum_assoc_implicit {E : Type} `{EqDecision E}
    (d : list (E * option Z)) (next : Z) (i : nat) (e : E) :
  Forall (fun x => snd x = None) d ->
  NoDup (map fst d) ->
  map fst d !! i = Some e ->
  enum_assoc e (enum_number next d) = Some (next + Z.of_nat i).
Proof.
  revert next i.
  induction d as [| [e0 init] rest IH]; intros next i Hnone Hnd Hi.
  - destruct i; discriminate Hi.
  - apply List.Forall_cons_iff in Hnone as [Hinit Hrest].
    cbn in Hinit. subst init.
    cbn in Hnd. apply NoDup_cons in Hnd as [Hfresh Hnd].
    cbn [enum_number enum_assoc].
    destruct i as [| i].
    + cbn in Hi. injection Hi as ->.
      rewrite decide_True by reflexivity. f_equal. lia.
    + cbn in Hi.
      rewrite decide_False.
      * rewrite (IH (next + 1) i Hrest Hnd Hi). f_equal. lia.
      * intros ->. apply Hfresh. apply list_elem_of_lookup. eauto.
Qed.

Lemma enum_value_implicit {E : Type} `{EqDecision E}
    (d : list (E * option Z)) (i : nat) (e : E) :
  Forall (fun x => snd x = None) d ->
  NoDup (map fst d) ->
  map fst d !! i = Some e ->
  enum_value d e = Z.of_nat i.
Proof.
  intros Hnone Hnd Hi. unfold enum_value.
  rewrite (enum_assoc_implicit d 0 i e Hnone Hnd Hi). cbn. lia.
Qed.

Lemma ObjectStatusType_position (e : ObjectStatusType) :
  map fst ObjectStatusType_decl !! Z.to_nat (ObjectStatusType_value e)
  = Some e.
Proof. destruct e; reflexivity. Qed.

Lemma ObjectMoveDirectionType_position (e : ObjectMoveDirectionType) :
  map fst ObjectMoveDirectionType_decl
    !! Z.to_nat (ObjectMoveDirectionType_value e)
  = Some e.
Proof. destruct e; reflexivity. Qed.

(** X1: the value of an [ObjectStatusType] enumerator is its position in
    the declaration, and conversely: the eleven enumerators and the indices
    0..10 of a table kept in declaration order correspond one to one. *)
Theorem ObjectStatusType_value_is_position (i : nat)
    (e : ObjectStatusType) :
  (map fst ObjectStatusType_decl !! i = Some e
   <-> ObjectStatusType_value e = Z.of_nat i)
  /\ 0 <= ObjectStatusType_value e
     < Z.of_nat (length ObjectStatusType_decl).
Proof.
  split; [split |].
  - intros Hi. apply enum_value_implicit; [| | exact Hi].
    + repeat constructor.
    + apply (bool_decide_unpack _). vm_compute. exact I.
  - intros Hv.
    assert (i = Z.to_nat (ObjectStatusType_value e)) as -> by lia.
    apply ObjectStatusType_position.
  - destruct e; vm_compute; split; first [discriminate | reflexivity].
Qed.

(** X2: the value of an [ObjectMoveDirectionType] enumerator is its position
    in the declaration, and conversely, over the indices 0..9;
    [NO_DIRECTION] is declared last and has the greatest value, 9. *)
Theorem ObjectMoveDirectionType_value_is_position (i : nat)
    (e : ObjectMoveDirectionType) :
  (map fst ObjectMoveDirectionType_decl !! i = Some e
   <-> ObjectMoveDirectionType_value e = Z.of_nat i)
  /\ 0 <= ObjectMoveDirectionType_value e
     < Z.of_nat (length ObjectMoveDirectionType_decl)
  /\ last (map fst ObjectMoveDirectionType_decl) = Some NO_DIRECTION
  /\ ObjectMoveDirectionType_value NO_DIRECTION = 9
  /\ ObjectMoveDirectionType_value e
     <= ObjectMoveDirectionType_value NO_DIRECTION.
Proof.
  split; [split |].
  - intros Hi. apply enum_value_implicit; [| | exact Hi].
    + repeat constructor.
    + apply (bool_decide_unpack _). vm_compute. exact I.
  - intros Hv.
    assert (i = Z.to_nat (ObjectMoveDirectionType_value e)) as -> by lia.
    apply ObjectMoveDirectionType_position.
  - split; [| split; [reflexivity | split; [reflexivity |]]].
    + destruct e; vm_compute; split; first [discriminate | reflexivity].
    + destruct e; vm_compute; discriminate.
Qed.

(** ** Kind tags identify their enumerator *)

Lemma NvDsEventType_value_inj (e1 e2 : NvDsEventType) :
  NvDsEventType_value e1 = NvDsEventType_value e2 -> e1 = e2.
Proof.
  intros H.
  destruct e1, e2;
    first [reflexivity | exfalso; vm_compute in H; discriminate H].
Qed.

Lemma NvDsObjectType_value_inj (e1 e2 : NvDsObjectType) :
  NvDsObjectType_value e1 = NvDsObjectType_value e2 -> e1 = e2.
Proof.
  intros H.
  destruct e1, e2;
    first [reflexivity | exfalso; vm_compute in H; discriminate H].
Qed.

Lemma NvDsPayloadType_value_inj (e1 e2 : NvDsPayloadType) :
  NvDsPayloadType_value e1 = NvDsPayloadType_value e2 -> e1 = e2.
Proof.
  intros H.
  destruct e1, e2;
    first [reflexivity | exfalso; vm_compute in H; discriminate H].
Qed.

(** X3: in each of the three kind enumerations no two enumerators have the
    same value, so a stored tag names at most one enumerator; and every
    value lies between 0 and the [*_FORCE32] sentinel, so it fits a
    non-negative 32-bit [int]. *)
Theorem kind_tag_values_injective :
  (forall e1 e2 : NvDsEventType,
      NvDsEventType_value e1 = NvDsEventType_value e2 <-> e1 = e2)
  /\ (forall e1 e2 : NvDsObjectType,
         NvDsObjectType_value e1 = NvDsObjectType_value e2 <-> e1 = e2)
  /\ (forall e1 e2 : NvDsPayloadType,
         NvDsPayloadType_value e1 = NvDsPayloadType_value e2 <-> e1 = e2)
  /\ (forall e : NvDsEventType,
         0 <= NvDsEventType_value e <= NvDsEventType_value NVDS_EVENT_FORCE32
         /\ NvDsEventType_value NVDS_EVENT_FORCE32 = 2 ^ 31 - 1)
  /\ (forall e : NvDsObjectType,
         0 <= NvDsObjectType_value e <= NvDsObjectType_value NVDS_OBEJCT_TYPE_FORCE32
         /\ NvDsObjectType_value NVDS_OBEJCT_TYPE_FORCE32 = 2 ^ 31 - 1)
  /\ (forall e : NvDsPayloadType,
         0 <= NvDsPayloadType_value e <= NvDsPayloadType_value NVDS_PAYLOAD_FORCE32
         /\ NvDsPayloadType_value NVDS_PAYLOAD_FORCE32 = 2 ^ 31 - 1).
Proof.
  split; [| split; [| split; [| split; [| split]]]].
  - intros e1 e2. split; [apply NvDsEventType_value_inj | congruence].
  - intros e1 e2. split; [apply NvDsObjectType_value_inj | congruence].
  - intros e1 e2. split; [apply NvDsPayloadType_value_inj | congruence].
  - intros e. destruct e; vm_compute; repeat split; try discriminate.
  - intros e. destruct e; vm_compute; repeat split; try discriminate.
  - intros e. destruct e; vm_compute; repeat split; try discriminate.
Qed.

(** ** Construction again *)

Lemma constructor_idempotent (this : AnalyticsObjectMeta) :
  _AnalyticsObjectMeta (_AnalyticsObjectMeta this)
  = _AnalyticsObjectMeta this.
Proof.
  destruct this as [d st ml tm ms tl lanes n r].
  inv_vec lanes; intros l0 l1 l2 l3. reflexivity.
Qed.

(** X4: what the analytics constructor produces depends on the storage
    only through the five members it does not assign: two storages
    construct to the same block exactly when they agree on
    [objMoveDIrection], [objStatus], [move_length],
    [time_gap_move_millisec] and [time_gap_longstay_millisec].  Running the
    constructor on an already constructed block changes nothing. *)
Theorem constructor_equal_iff (a b : AnalyticsObjectMeta) :
  (_AnalyticsObjectMeta a = _AnalyticsObjectMeta b
   <-> objMoveDIrection a = objMoveDIrection b
       /\ objStatus a = objStatus b
       /\ move_length a = move_length b
       /\ time_gap_move_millisec a = time_gap_move_millisec b
       /\ time_gap_longstay_millisec a = time_gap_longstay_millisec b)
  /\ _AnalyticsObjectMeta (_AnalyticsObjectMeta a) = _AnalyticsObjectMeta a.
Proof.
  split; [| apply constructor_idempotent].
  destruct a as [d st ml tm ms tl lanes n r].
  destruct b as [d' st' ml' tm' ms' tl' lanes' n' r'].
  inv_vec lanes; intros l0 l1 l2 l3.
  inv_vec lanes'; intros l0' l1' l2' l3'.
  cbn. split.
  - intros H. injection H as -> -> -> -> ->. repeat split.
  - intros (-> & -> & -> & -> & ->). reflexivity.
Qed.

(** X5: default-constructing an event record touches the analytics block
    and nothing else: the block comes out as its own constructor leaves it,
    every pointer member, the two kind tags and the extension size are what
    the storage held (none is reset to [NULL] or 0), writing the old block
    back gives the old storage, and constructing twice is constructing
    once. *)
Theorem default_record_frame (this : NvDsEventMsgMeta) :
  let m := NvDsEventMsgMeta_default this in
  objStatusInfo m = _AnalyticsObjectMeta (objStatusInfo this)
  /\ owned_pointers m = owned_pointers this
  /\ (type m = type this /\ objType m = objType this
      /\ extMsgSize m = extMsgSize this)
  /\ set_objStatusInfo m (objStatusInfo this) = this
  /\ NvDsEventMsgMeta_default m = m.
Proof.
  cbv zeta. split; [reflexivity |]. split; [reflexivity |].
  split; [repeat split |]. split.
  - destruct this; reflexivity.
  - unfold NvDsEventMsgMeta_default. cbn.
    rewrite constructor_idempotent. reflexivity.
Qed.

(** ** Attachments compose *)

(** X6: a second attach to the same slot replaces the first without a
    trace: the slot holds the second pointer and length, and the record is
    the one the second attach alone would have given, for the extension,
    the signature, the pose and the embedding. *)
Theorem attach_last_write_wins (m : NvDsEventMsgMeta)
    (p1 p2 : gpointer) (n1 n2 : guint) (c1 c2 t1 t2 : gint) :
  (extMsg (attach_extMsg (attach_extMsg m p1 n1) p2 n2) = p2
   /\ extMsgSize (attach_extMsg (attach_extMsg m p1 n1) p2 n2) = n2
   /\ attach_extMsg (attach_extMsg m p1 n1) p2 n2 = attach_extMsg m p2 n2)
  /\ (objSignature (attach_objSignature (attach_objSignature m p1 n1) p2 n2)
      = {| signature := p2; size := n2 |}
      /\ attach_objSignature (attach_objSignature m p1 n1) p2 n2
         = attach_objSignature m p2 n2)
  /\ (pose (attach_pose (attach_pose m p1 c1 t1) p2 c2 t2)
      = {| joints := p2; num_joints := c2; pose_type := t2 |}
      /\ attach_pose (attach_pose m p1 c1 t1) p2 c2 t2
         = attach_pose m p2 c2 t2)
  /\ (embedding (attach_embedding (attach_embedding m p1 n1) p2 n2)
      = {| embedding_vector := p2; embedding_length := n2 |}
      /\ attach_embedding (attach_embedding m p1 n1) p2 n2
         = attach_embedding m p2 n2).
Proof. repeat split. Qed.


(** ** Counts and empty attachments *)

Lemma element_count_nonneg (s : store) (p : gpointer) :
  0 <= element_count s p.
Proof.
  unfold element_count.
  destruct (deref s p) as [[] |]; lia.
Qed.

Lemma deref_NULL (s : store) : deref s NULL = None.
Proof. unfold deref. rewrite decide_True by reflexivity. reflexivity. Qed.

Lemma element_count_NULL (s : store) : element_count s NULL = 0.
Proof. unfold element_count. rewrite deref_NULL. reflexivity. Qed.

(** X8: [num_joints] is a signed [int]: a negative count can be attached,
    is stored as given, and never is the number of stored joints, whatever
    the pointer and the store. *)
Theorem negative_joint_count_never_agrees (s : store)
    (m : NvDsEventMsgMeta) (p : gpointer) (c t : gint) :
  c < 0 ->
  num_joints (pose (attach_pose m p c t)) = c
  /\ pose_count_agrees s (attach_pose m p c t) = false.
Proof.
  intros Hc. split; [reflexivity |].
  unfold pose_count_agrees. cbn. apply Z.eqb_neq.
  pose proof (element_count_nonneg s p). lia.
Qed.

(** A pose attached with count -1 to a zero-filled record. *)
Lemma negative_joint_count_never_agrees_witness :
  -1 < 0
  /\ num_joints (pose (attach_pose zero_NvDsEventMsgMeta NULL (-1) 0)) = -1
  /\ pose_count_agrees sample_store
       (attach_pose zero_NvDsEventMsgMeta NULL (-1) 0) = false.
Proof.
  split; [lia |].
  apply (negative_joint_count_never_agrees sample_store
           zero_NvDsEventMsgMeta NULL (-1) 0).
  lia.
Defined.

(** X9: a [NULL] pointer designates nothing in any store.  A signature,
    pose or embedding attached with [NULL] has its declared length agree
    exactly when that length is 0, and an extension attached with [NULL]
    reads back as no object and no kind. *)
Theorem null_attachments (s : store) (m : NvDsEventMsgMeta)
    (n : guint) (c t : gint) :
  (signature_length_agrees s (attach_objSignature m NULL n) = true
   <-> n = 0)
  /\ (pose_count_agrees s (attach_pose m NULL c t) = true <-> c = 0)
  /\ (embedding_length_agrees s (attach_embedding m NULL n) = true
      <-> n = 0)
  /\ read_extMsg s (attach_extMsg m NULL n) = None
  /\ extMsg_kind s (attach_extMsg m NULL n) = None
  /\ extMsg_kind_agrees s (attach_extMsg m NULL n) = false.
Proof.
  split; [| split; [| split; [| split; [| split]]]].
  - unfold signature_length_agrees. cbn.
    rewrite element_count_NULL. apply Z.eqb_eq.
  - unfold pose_count_agrees. cbn.
    rewrite element_count_NULL. apply Z.eqb_eq.
  - unfold embedding_length_agrees. cbn.
    rewrite element_count_NULL. apply Z.eqb_eq.
  - unfold read_extMsg. cbn. apply deref_NULL.
  - unfold extMsg_kind, read_extMsg. cbn. rewrite deref_NULL. reflexivity.
  - unfold extMsg_kind_agrees, extMsg_kind, read_extMsg. cbn.
    rewrite deref_NULL. reflexivity.
Qed.

(** ** A consistent producer *)

(** X11: when the producer writes the tag of an object's kind into
    [objType] and attaches that object, in either order, the slot reads the
    object back, its kind agrees with the tag, and the tag names that kind
    and no other enumerator. *)
Theorem consistent_attach_agrees (s : store) (m : NvDsEventMsgMeta)
    (p : gpointer) (n : guint) (b : block) (k : NvDsObjectType) :
  deref s p = Some b ->
  block_objType b = Some k ->
  let m' := attach_extMsg (set_objType m (NvDsObjectType_value k)) p n in
  m' = set_objType (attach_extMsg m p n) (NvDsObjectType_value k)
  /\ read_extMsg s m' = Some b
  /\ extMsg_kind_agrees s m' = true
  /\ (forall k' : NvDsObjectType,
         NvDsObjectType_value k' = objType m'
         <-> extMsg_kind s m' = Some k').
Proof.
  intros Hp Hk. cbv zeta.
  assert (Hkind : extMsg_kind s
            (attach_extMsg (set_objType m (NvDsObjectType_value k)) p n)
          = Some k).
  { unfold extMsg_kind, read_extMsg. cbn. rewrite Hp. exact Hk. }
  split; [reflexivity |].
  split; [unfold read_extMsg; cbn; exact Hp |].
  split.
  - apply extMsg_kind_agrees_spec. exists k. split; [exact Hkind | reflexivity].
  - intros k'. rewrite Hkind. cbn. split.
    + intros Hv. apply NvDsObjectType_value_inj in Hv. congruence.
    + intros Hv. injection Hv as ->. reflexivity.
Qed.

(** The sample vehicle attached to a record that is then tagged VEHICLE. *)
Lemma consistent_attach_agrees_witness :
  deref sample_store 32%N = Some (VehicleObject sample_vehicle)
  /\ block_objType (VehicleObject sample_vehicle)
     = Some NVDS_OBJECT_TYPE_VEHICLE
  /\ let m' :=
       attach_extMsg
         (set_objType face_record
            (NvDsObjectType_value NVDS_OBJECT_TYPE_VEHICLE)) 32%N 48 in
     m' = set_objType (attach_extMsg face_record 32%N 48)
            (NvDsObjectType_value NVDS_OBJECT_TYPE_VEHICLE)
     /\ read_extMsg sample_store m' = Some (VehicleObject sample_vehicle)
     /\ extMsg_kind_agrees sample_store m' = true
     /\ (forall k' : NvDsObjectType,
            NvDsObjectType_value k' = objType m'
            <-> extMsg_kind sample_store m' = Some k').
Proof.
  split; [reflexivity |]. split; [reflexivity |].
  apply (consistent_attach_agrees sample_store face_record 32%N 48
           (VehicleObject sample_vehicle) NVDS_OBJECT_TYPE_VEHICLE);
    reflexivity.
Defined.
